(** * Stormspotter ingest models: a shallow embedding of
      [stormspotter/ingest/models.py] and the properties of its
      node and relationship construction. *)

From Stdlib Require Import String Ascii ZArith DecimalString Bool.
From stdpp Require Import base option list strings gmap sorting.

#[local] Set Warnings "-register-all".
#[local] Open Scope Z_scope.
#[local] Open Scope nat_scope.

(** ** Python exceptions and results *)

Inductive exn :=
| ValidationError   (* pydantic.ValidationError *)
| AttributeError
| TypeError
| IndexError
| ValueError.

Inductive result (A : Type) :=
| Ok (a : A)
| Raise (e : exn).
Arguments Ok {A} a.
Arguments Raise {A} e.

Definition bind {A B} (r : result A) (k : A -> result B) : result B :=
  match r with
  | Ok a => k a
  | Raise e => Raise e
  end.

Notation "'let*' x ':=' e 'in' k" := (bind e (fun x => k))
  (at level 10, x pattern, e at level 100, k at level 200).

(** [try: ... except: value = None] as used around [attrgetter]. *)
Definition try_except {A} (r : result A) (handler : A) : A :=
  match r with
  | Ok a => a
  | Raise _ => handler
  end.

Definition raises {A} (r : result A) : Prop := exists e, r = Raise e.

Section MapM.
Context {A B : Type} (f : A -> result B).

Fixpoint mapM (l : list A) : result (list B) :=
  match l with
  | [] => Ok []
  | x :: l' => let* y := f x in let* ys := mapM l' in Ok (y :: ys)
  end.
End MapM.

(** ** Python [str] operations *)

Module Str.

Definition upper_char (c : ascii) : ascii :=
  let n := nat_of_ascii c in
  if (97 <=? n) && (n <=? 122) then ascii_of_nat (n - 32) else c.

Definition lower_char (c : ascii) : ascii :=
  let n := nat_of_ascii c in
  if (65 <=? n) && (n <=? 90) then ascii_of_nat (n + 32) else c.

Fixpoint map_chars (f : ascii -> ascii) (s : string) : string :=
  match s with
  | EmptyString => EmptyString
  | String c s' => String (f c) (map_chars f s')
  end.

(** [s.upper()] and [s.lower()] on ASCII text *)
Definition upper : string -> string := map_chars upper_char.
Definition lower : string -> string := map_chars lower_char.

(** [sub in s] *)
Fixpoint contains (sub s : string) : bool :=
  String.prefix sub s ||
  match s with
  | EmptyString => false
  | String _ s' => contains sub s'
  end.

Definition cons_head (c : ascii) (l : list string) : list string :=
  match l with
  | p :: ps => String c p :: ps
  | [] => [String c EmptyString]
  end.

(** The scan of [s.split(sep)]: leftmost, non-overlapping occurrences of
    [sep]; [skip] counts the characters of a matched separator that are
    still to be passed over. *)
Fixpoint split_go (sep s : string) (skip : nat) : list string :=
  match s with
  | EmptyString => [EmptyString]
  | String c s' =>
      match skip with
      | S k => split_go sep s' k
      | O =>
          if String.prefix sep s
          then EmptyString :: split_go sep s' (String.length sep - 1)
          else cons_head c (split_go sep s' 0)
      end
  end.

(** [s.split(sep)]; an empty separator is a [ValueError]. *)
Definition split (s sep : string) : result (list string) :=
  match sep with
  | EmptyString => Raise ValueError
  | _ => Ok (split_go sep s 0)
  end.

(** iteration over a string yields its one-character strings *)
Fixpoint chars (s : string) : list string :=
  match s with
  | EmptyString => []
  | String c s' => String c EmptyString :: chars s'
  end.

(** [str(n)] for an [int] *)
Definition of_int (n : Z) : string := NilZero.string_of_int (Z.to_int n).

End Str.

(** [l[i]] for a non-negative index and [l[-1]] *)
Definition index {A} (l : list A) (i : nat) : result A :=
  match l !! i with
  | Some x => Ok x
  | None => Raise IndexError
  end.

Definition index_last {A} (l : list A) : result A :=
  match last l with
  | Some x => Ok x
  | None => Raise IndexError
  end.

(** ** Python values

    The raw records are JSON-compatible values; [VObj] is a
    [DynamicObject], given by its [__dict__].  A [dict] is the list of its
    items in insertion order.  A [float] is carried by its [repr]. *)

Inductive value :=
| VNone
| VBool (b : bool)
| VInt (n : Z)
| VFloat (repr : string)
| VStr (s : string)
| VList (l : list value)
| VDict (d : list (string * value))
| VObj (d : list (string * value)).

Abbreviation dict := (list (string * value)).

Section Dict.
Context {A : Type}.

(** [d.get(k)] *)
Fixpoint dict_get (k : string) (d : list (string * A)) : option A :=
  match d with
  | [] => None
  | (k', v) :: d' => if decide (k = k') then Some v else dict_get k d'
  end.

(** [d[k] = v]: an existing key keeps its position *)
Fixpoint dict_set (k : string) (v : A) (d : list (string * A)) : list (string * A) :=
  match d with
  | [] => [(k, v)]
  | (k', v') :: d' =>
      if decide (k = k') then (k, v) :: d' else (k', v') :: dict_set k v d'
  end.

(** [a | b] *)
Definition dict_merge (a b : list (string * A)) : list (string * A) :=
  fold_left (fun acc kv => dict_set kv.1 kv.2 acc) b a.

(** [{k: v for k, v in d.items() if k not in ks}] *)
Definition dict_exclude (ks : list string) (d : list (string * A)) : list (string * A) :=
  filter (fun kv => kv.1 ∉ ks) d.
End Dict.

(** Truth value testing *)
Definition truthy (v : value) : bool :=
  match v with
  | VNone => false
  | VBool b => b
  | VInt n => negb (n =? 0)%Z
  | VFloat r => negb (bool_decide (r = "0.0") || bool_decide (r = "-0.0"))
  | VStr s => negb (bool_decide (s = ""))
  | VList l => negb (bool_decide (l = []))
  | VDict d => negb (bool_decide (d = []))
  | VObj _ => true
  end.

(** Attribute access [obj.name], for the attribute names this module reads
    from record data ([accessPolicies], [objectId], [permissions] and the
    extraction fields): a [DynamicObject] holds them in its [__dict__], no
    other value has them. *)
Definition py_getattr (obj : value) (name : string) : result value :=
  match obj with
  | VObj d =>
      match dict_get name d with
      | Some v => Ok v
      | None => Raise AttributeError
      end
  | _ => Raise AttributeError
  end.

(** [for x in v]: the items a [for] loop visits. *)
Definition py_iter (v : value) : result (list value) :=
  match v with
  | VList l => Ok l
  | VStr s => Ok (VStr <$> Str.chars s)
  | VDict d => Ok ((fun kv => VStr kv.1) <$> d)
  | _ => Raise TypeError
  end.

(** [operator.attrgetter(path)(obj)]: one [getattr] per dotted segment. *)
Definition attrgetter (path : string) (obj : value) : result value :=
  let* names := Str.split path "." in
  fold_left (fun acc name => let* o := acc in py_getattr o name) names (Ok obj).

(** ** DynamicObject *)

Module DynamicObject.

(** [json.loads(json.dumps(d, default={}), object_hook=DynamicObject)]:
    every JSON object becomes a [DynamicObject]; a value that is not JSON
    serialisable reaches [default], which is not callable. *)
Fixpoint from_dict (d : value) : result value :=
  match d with
  | VList l => let* l' := mapM from_dict l in Ok (VList l')
  | VDict kvs =>
      let* kvs' := mapM (fun kv => let* v := from_dict kv.2 in Ok (kv.1, v)) kvs in
      Ok (VObj kvs')
  | VObj _ => Raise TypeError
  | v => Ok v
  end.

End DynamicObject.

(** ** The relation taxonomy *)

Inductive RelationLabels :=
| AttachedTo | Authenticates | ConnectedTo | Contains | Exposes
| HasAccessPolicies | HasRbac | HasRole | Manages | MemberOf | Owns
| RepresentedBy | Trusts.

#[global] Instance RelationLabels_eq_dec : EqDecision RelationLabels.
Proof. solve_decision. Defined.

(** ** pydantic field validation

    The models are pydantic (1.x) [BaseModel]s: a constructor validates the
    record against the annotated fields before the module's own code runs.
    This is that validation, for the annotations and validators that occur
    in the module. *)

Module Pydantic.

(** [str_validator]: a [str] as it is, a number through [str()]. *)
Definition str_validator (v : value) : result string :=
  match v with
  | VStr s => Ok s
  | VInt n => Ok (Str.of_int n)
  | VBool b => Ok (if b then "True" else "False")
  | VFloat r => Ok r
  | _ => Raise ValidationError
  end.

Definition BOOL_TRUE : list string := ["1"; "on"; "t"; "true"; "y"; "yes"].
Definition BOOL_FALSE : list string := ["0"; "off"; "f"; "false"; "n"; "no"].

(** [bool_validator] *)
Definition bool_validator (v : value) : result bool :=
  match v with
  | VBool b => Ok b
  | VInt 1 => Ok true
  | VInt 0 => Ok false
  | VFloat r =>
      if bool_decide (r = "1.0") then Ok true
      else if bool_decide (r = "0.0") || bool_decide (r = "-0.0") then Ok false
      else Raise ValidationError
  | VStr s =>
      if bool_decide (Str.lower s ∈ BOOL_TRUE) then Ok true
      else if bool_decide (Str.lower s ∈ BOOL_FALSE) then Ok false
      else Raise ValidationError
  | _ => Raise ValidationError
  end.

(** The annotated types of this module's fields. *)
Inductive ftype :=
| TStr              (* str *)
| TBool             (* bool *)
| TListStr          (* List[str] *)
| TDynamicObject.   (* DynamicObject, an arbitrary type *)

(** Validation against the annotated type of a value that is not [None]. *)
Definition validate_type (t : ftype) (v : value) : result value :=
  match t with
  | TStr => let* s := str_validator v in Ok (VStr s)
  | TBool => let* b := bool_validator v in Ok (VBool b)
  | TListStr =>
      match v with
      | VList l => let* ss := mapM str_validator l in Ok (VList (VStr <$> ss))
      | _ => Raise ValidationError
      end
  | TDynamicObject =>
      match v with
      | VObj _ => Ok v
      | _ => Raise ValidationError
      end
  end.

(** A model field: [required] and [allow_none] as pydantic infers them from
    the annotation and the default; [pre] is a [@validator(..., pre=True,
    always=True)] of the field. *)
Record field := Field {
  fname : string;
  ftyp : ftype;
  required : bool;
  allow_none : bool;
  fdefault : value;
  pre : option (value -> result value);
}.

(** Outcome of one field: a value, an error that pydantic collects, or an
    exception that passes through [validate_model]. *)
Inductive outcome :=
| Valid (v : value)
| Invalid
| Abort (e : exn).

Definition of_result (r : result value) : outcome :=
  match r with
  | Ok v => Valid v
  | Raise _ => Invalid
  end.

(** [ModelField.validate]: the pre-validators first (only [ValueError],
    [TypeError] and [AssertionError] are turned into validation errors),
    then the [None] check, then the type. *)
Definition validate_field (f : field) (v : value) : outcome :=
  let after_pre :=
    match pre f with
    | None => Ok v
    | Some g => g v
    end in
  match after_pre with
  | Raise ValueError | Raise TypeError | Raise ValidationError => Invalid
  | Raise e => Abort e
  | Ok VNone => if allow_none f then Valid VNone else Invalid
  | Ok v' => of_result (validate_type (ftyp f) v')
  end.

(** What [validate_model] computes for one field of the input: a key that
    is missing makes a required field an error and gives an optional field
    its default, which is validated only when the field has an [always]
    validator. *)
Definition field_value (f : field) (data : dict) : outcome :=
  match dict_get (fname f) data with
  | Some v => validate_field f v
  | None =>
      if required f then Invalid
      else match pre f with
           | Some _ => validate_field f (fdefault f)
           | None => Valid (fdefault f)
           end
  end.

(** [validate_model]: the fields in declaration order; unknown keys are
    ignored ([extra = "ignore"]); errors are collected and raised as one
    [ValidationError] after the last field. *)
Fixpoint validate_model (fs : list field) (data values : dict) (ok : bool)
  : result dict :=
  match fs with
  | [] => if ok then Ok values else Raise ValidationError
  | f :: fs' =>
      match field_value f data with
      | Valid v => validate_model fs' data (values ++ [(fname f, v)]) ok
      | Invalid => validate_model fs' data values false
      | Abort e => Raise e
      end
  end.

(** Shorthands for the annotations that occur. *)
Definition req (n : string) (t : ftype) : field := Field n t true false VNone None.
(** [Optional[T]] *)
Definition opt (n : string) (t : ftype) : field := Field n t false true VNone None.
(** [Optional[T] = ...] *)
Definition req_opt (n : string) (t : ftype) : field := Field n t true true VNone None.

End Pydantic.

(** ** Relationship *)

Module Relationship.

Record t := mk {
  source : string;
  source_label : list string;
  target : string;
  target_label : list string;
  relation : RelationLabels;
  properties : option dict;
}.

(** Convert DynamicObject to dict *)
Definition format_properties (props : value) : value :=
  match props with
  | VDict _ => props
  | VObj d => VDict d
  | _ => VNone
  end.

(** [Relationship(source=..., source_label=..., target=..., target_label=...,
    relation=..., properties=...)].  The label arguments are results of
    [_labels()], which is [None] for [Node]; [properties] left out is
    [None].  Any field error makes the constructor raise. *)
Definition init (source : value) (source_label : option (list string))
    (target : value) (target_label : option (list string))
    (relation : RelationLabels) (properties : value) : result t :=
  let src := Pydantic.str_validator source in
  let tgt := Pydantic.str_validator target in
  let props :=
    match format_properties properties with
    | VNone => Ok None
    | VDict d => Ok (Some d)
    | _ => Raise ValidationError
    end in
  match src, source_label, tgt, target_label, props with
  | Ok s, Some sl, Ok g, Some tl, Ok p => Ok (mk s sl g tl relation p)
  | _, _, _, _, _ => Raise ValidationError
  end.

End Relationship.

(** An element of a [_relationships] list: a [Relationship], or the empty
    list that the default [__relationships__] yields. *)
Inductive item :=
| Rel (r : Relationship.t)
| EmptyList.

(** ** The model classes *)

Inductive class :=
| Node
| AADObject | AADApplication | AADServicePrincipal | AADGroup | AADRole | AADUser
| ARMResource | Tenant | Subscription | ResourceGroup | KeyVault | StorageAccount.

#[global] Instance class_eq_dec : EqDecision class.
Proof. solve_decision. Defined.

(** [cls.__qualname__] *)
Definition qualname (c : class) : string :=
  match c with
  | Node => "Node"
  | AADObject => "AADObject"
  | AADApplication => "AADApplication"
  | AADServicePrincipal => "AADServicePrincipal"
  | AADGroup => "AADGroup"
  | AADRole => "AADRole"
  | AADUser => "AADUser"
  | ARMResource => "ARMResource"
  | Tenant => "Tenant"
  | Subscription => "Subscription"
  | ResourceGroup => "ResourceGroup"
  | KeyVault => "KeyVault"
  | StorageAccount => "StorageAccount"
  end.

(** [cls.__mro__[1].__name__]: the name of the direct base class. *)
Definition base_name (c : class) : string :=
  match c with
  | Node => "BaseModel"
  | AADObject | ARMResource => "Node"
  | AADApplication | AADServicePrincipal | AADGroup | AADRole | AADUser => "AADObject"
  | Tenant | Subscription | ResourceGroup | KeyVault | StorageAccount => "ARMResource"
  end.

(** Get the Neo4j labels for subclassed models *)
Definition _labels (c : class) : option (list string) :=
  match (let* parts := Str.split (qualname c) "." in index_last parts) with
  | Ok label =>
      if bool_decide (label = "Node") then None
      else if bool_decide (label ∈ ["AADObject"; "ARMResource"])
      then Some [Str.upper label]
      else Some [Str.upper label; Str.upper (base_name c)]
  | Raise _ => None
  end.

Inductive family := FNode | FAAD | FARM.

Definition family_of (c : class) : family :=
  match c with
  | Node => FNode
  | AADObject | AADApplication | AADServicePrincipal | AADGroup | AADRole | AADUser => FAAD
  | ARMResource | Tenant | Subscription | ResourceGroup | KeyVault | StorageAccount => FARM
  end.

(** [AADUser.exattr_to_values_list]:
    [list(filter(None, dict_value.values()))] *)
Definition exattr_to_values_list (dict_value : value) : result value :=
  match dict_value with
  | VDict d => Ok (VList (filter (fun v => truthy v = true) (snd <$> d)))
  | _ => Raise AttributeError
  end.

(** [ARMResource.convert_to_list]: Convert tags dictionary to list for
    neo4j property *)
Definition flatten_items (d : dict) : list value :=
  flat_map (fun kv => [VStr kv.1; kv.2]) d.

Definition convert_to_list (dict_value : value) : result value :=
  if truthy dict_value then
    match dict_value with
    | VDict d => Ok (VList (flatten_items d))
    | _ => Raise AttributeError     (* no [items()] *)
    end
  else Ok VNone.

(** [ARMResource.props_to_obj]: Convert properties dictionary to dynamic
    object *)
Definition props_to_obj (dict_value : value) : result value :=
  DynamicObject.from_dict dict_value.

Import Pydantic.

(** [properties: Optional[DynamicObject]] with its validator *)
Definition properties_field : field :=
  Field "properties" TDynamicObject false true VNone (Some props_to_obj).

(** [tags: Optional[List[str]]] with its validator *)
Definition tags_field : field :=
  Field "tags" TListStr false true VNone (Some convert_to_list).

(** The fields a class declares itself, in annotation order. *)
Definition own_fields (c : class) : list field :=
  match c with
  | Node => []
  | AADObject => [req "id" TStr; req "displayName" TStr]
  | AADApplication =>
      [req "appId" TStr; opt "appOwnerOrganizationId" TStr;
       req "owners" TListStr; opt "publisherName" TStr]
  | AADServicePrincipal =>
      [req "accountEnabled" TBool; req_opt "appDisplayName" TStr;
       req "appId" TStr; req_opt "appOwnerOrganizationId" TStr;
       req "owners" TListStr; req_opt "publisherName" TStr;
       req "servicePrincipalType" TStr]
  | AADGroup =>
      [req "members" TListStr; req_opt "onPremisesSecurityIdentifier" TStr;
       req "organizationId" TStr; req "owners" TListStr;
       req "securityEnabled" TBool]
  | AADRole =>
      [req "description" TStr; req_opt "deletedDateTime" TStr;
       req "roleTemplateId" TStr; req "members" TListStr]
  | AADUser =>
      [req "accountEnabled" TBool; req_opt "creationType" TStr;
       req_opt "mail" TStr; req_opt "mailNickname" TStr;
       req_opt "onPremisesDistinguishedName" TStr;
       req_opt "onPremisesDomainName" TStr;
       Field "onPremisesExtensionAttributes" TListStr false true (VList [])
         (Some exattr_to_values_list);
       req_opt "onPremisesSamAccountName" TStr;
       req_opt "onPremisesSecurityIdentifier" TStr;
       req_opt "onPremisesUserPrincipalName" TStr;
       req "refreshTokensValidFromDateTime" TStr;
       req "userPrincipalName" TStr; req "userType" TStr]
  | ARMResource =>
      [req "id" TStr; opt "location" TStr; opt "name" TStr;
       properties_field; tags_field]
  | Tenant =>
      [req "tenant_id" TStr; req "tenant_category" TStr;
       req "country_code" TStr; req "domains" TListStr;
       req "default_domain" TStr; req "tenant_type" TStr]
  | Subscription =>
      [req "tenant_id" TStr; req "subscription_id" TStr; req "state" TStr;
       Field "managed_by_tenants" TListStr false true (VList []) None]
  | ResourceGroup | KeyVault | StorageAccount => []
  end.

(** [cls.__fields__]: the inherited fields, then the class's own. *)
Definition fields_of (c : class) : list field :=
  match c with
  | Node => []
  | AADObject | ARMResource => own_fields c
  | _ =>
      match family_of c with
      | FAAD => own_fields AADObject ++ own_fields c
      | FARM => own_fields ARMResource ++ own_fields c
      | FNode => []
      end
  end.

(** [__arm_type__] of the concrete resource classes *)
Definition __arm_type__ (c : class) : option string :=
  match c with
  | Tenant => Some "tenant"
  | Subscription => Some "subscription"
  | ResourceGroup => Some "microsoft.resources/resourcegroups"
  | KeyVault => Some "microsoft.keyvault/vaults"
  | StorageAccount => Some "microsoft.storage/storageaccounts"
  | _ => None
  end.

(** [__xfields__] as the class bodies assign it: the extraction fields that
    [KeyVault] and [StorageAccount] declare.  The constructor does not read
    these lists: [self.__xfields__] is the private attribute of the
    instance, see [ARM.self__xfields__]. *)
Definition __xfields__ (c : class) : list string :=
  match c with
  | KeyVault =>
      ["enableSoftDelete"; "softDeleteRetentionInDays";
       "enableRbacAuthorization"; "enablePurgeProtection"; "vaultUri"]
  | StorageAccount => ["accessTier"; "creationTime"; "supportsHttpsTrafficOnly"]
  | _ => []
  end.

(** [__map_to_resourcegroup__] *)
Definition __map_to_resourcegroup__ (c : class) : bool :=
  match c with
  | Tenant | Subscription | ResourceGroup => false
  | _ => true
  end.

(** ** Node instances *)

(** A constructed model: its class, the validated field values (the
    instance [__dict__]) and the two private attributes. *)
Record instance := Instance {
  cls : class;
  fields : dict;
  __xdict__ : dict;
  _relationships : list item;
}.

(** [self.name] for a field *)
Definition attr (self : instance) (name : string) : result value :=
  match dict_get name (fields self) with
  | Some v => Ok v
  | None => Raise AttributeError
  end.

(** A [str] method is called on the value: anything else has no such
    method. *)
Definition as_str (v : value) : result string :=
  match v with
  | VStr s => Ok s
  | _ => Raise AttributeError
  end.

(** What a node export maps a key to: a field value, or the relationship
    list under ["_relationships"]. *)
Inductive exported :=
| Plain (v : value)
| Relationships (l : list item).

(** [self.dict(exclude=...)] *)
Definition model_dict (self : instance) (exclude : list string)
  : list (string * exported) :=
  prod_map id Plain <$> dict_exclude exclude (fields self).

(** [Node.__relationships__]: a generator whose body is [yield []]. *)
Definition Node__relationships__ (self : instance) : result (list item) :=
  Ok [EmptyList].

(** [KeyVault.__relationships__] *)
Definition KeyVault__relationships__ (self : instance) : result (list item) :=
  let* properties := attr self "properties" in
  let* accessPolicies := py_getattr properties "accessPolicies" in
  let* policies := py_iter accessPolicies in
  mapM (fun policy =>
          let* objectId := py_getattr policy "objectId" in
          let* id := attr self "id" in
          let* permissions := py_getattr policy "permissions" in
          let* r := Relationship.init objectId (_labels AADObject)
                      id (_labels (cls self)) HasAccessPolicies permissions in
          Ok (Rel r))
       policies.

(** [self.__relationships__()], by the class of [self]; consuming the
    generator gives its items or the exception it stops with. *)
Definition __relationships__ (self : instance) : result (list item) :=
  match cls self with
  | KeyVault => KeyVault__relationships__ self
  | _ => Node__relationships__ self
  end.

Module NodeBase.

(** The inherited [BaseModel] constructor: field validation only. *)
Definition init (c : class) (data : dict) : result instance :=
  let* values := validate_model (fields_of c) data [] true in
  Ok (Instance c values [] []).

(** Node representation safe for Neo4j *)
Definition node (self : instance) : list (string * exported) :=
  model_dict self ["properties"].

End NodeBase.

(** ** AAD related models *)

Module AAD.

(** [getattr(self, name, [])] *)
Definition getattr_default (self : instance) (name : string) : value :=
  try_except (attr self name) (VList []).

(** Process owner relations *)
Definition owner_edges (self : instance) : result (list item) :=
  let* owners := py_iter (getattr_default self "owners") in
  mapM (fun owner =>
          let* id := attr self "id" in
          let* r := Relationship.init id (_labels (cls self))
                      owner (_labels AADObject) Owns VNone in
          Ok (Rel r))
       owners.

(** Process member relations *)
Definition member_edges (self : instance) : result (list item) :=
  let* members := py_iter (getattr_default self "members") in
  mapM (fun member =>
          let* id := attr self "id" in
          let* r := Relationship.init member (_labels AADObject)
                      id (_labels (cls self)) MemberOf VNone in
          Ok (Rel r))
       members.

(** [AADObject.__init__] *)
Definition init (c : class) (data : dict) : result instance :=
  let* values := validate_model (fields_of c) data [] true in
  let self := Instance c values [] [] in
  let* owns := owner_edges self in
  let* member_of := member_edges (Instance c values [] owns) in
  let* extra := __relationships__ (Instance c values [] (owns ++ member_of)) in
  Ok (Instance c values [] (owns ++ member_of ++ extra)).

(** Node representation safe for Neo4j *)
Definition node (self : instance) : list (string * exported) :=
  dict_merge (model_dict self ["owners"; "members"])
             [("_relationships", Relationships (_relationships self))].

End AAD.

(** ** ARM related models *)

Module ARM.

(** Get the subscription from the id *)
Definition subscription (self : instance) : result value :=
  let* v := attr self "id" in
  let* id := as_str v in
  if Str.contains "subscriptions" id then
    let* parts := Str.split id "/" in
    let* s := index parts 2 in
    Ok (VStr s)
  else Ok VNone.

(** Get the resource group from the id *)
Definition resourcegroup (self : instance) : result value :=
  let* v := attr self "id" in
  let* id := as_str v in
  if Str.contains "providers" id then
    let* parts := Str.split id "/providers" in
    let* g := index parts 0 in
    Ok (VStr g)
  else Ok VNone.

(** [self.__xfields__].  [ARMResource] declares
    [__xfields__: ClassVar[List[str]] = PrivateAttr(default_factory=list)]:
    the assigned value is a [PrivateAttr], so pydantic keeps [__xfields__]
    as a private attribute of the model and of all its subclasses and sets
    it on every new instance from the default factory, [list()].  What a
    subclass body assigns to the name does not change that: on an instance,
    of whatever class, the attribute is the empty list. *)
Definition self__xfields__ (self : instance) : list string := [].

(** Grab the field from the properties and set it as it's own property:
    one pass of the loop over [self.__xfields__]. *)
Definition promote (properties : value) (xdict : result dict) (field : string)
  : result dict :=
  let* d := xdict in
  let value := try_except (attrgetter field properties) VNone in
  let* parts := Str.split field "." in
  let* field_name := index_last parts in
  Ok (dict_set field_name value d).

(** The block under [if self.properties and self.__xfields__], with
    [xfields] the value of [self.__xfields__]. *)
Definition extract (xfields : list string) (properties : value) : result dict :=
  if truthy properties && negb (bool_decide (xfields = []))
  then fold_left (promote properties) xfields (Ok [])
  else Ok [].

(** Add default resource group relationship *)
Definition resourcegroup_edge (self : instance) : result (list item) :=
  if __map_to_resourcegroup__ (cls self) then
    let* rg := resourcegroup self in
    let* id := attr self "id" in
    let* r := Relationship.init rg (_labels ResourceGroup)
                id (_labels (cls self)) Contains VNone in
    Ok [Rel r]
  else Ok [].

(** [ARMResource.__init__] *)
Definition init (c : class) (data : dict) : result instance :=
  let* values := validate_model (fields_of c) data [] true in
  let self := Instance c values [] [] in
  let* properties := attr self "properties" in
  let* xdict := extract (self__xfields__ self) properties in
  let* contains := resourcegroup_edge (Instance c values xdict []) in
  let* extra := __relationships__ (Instance c values xdict contains) in
  Ok (Instance c values xdict (contains ++ extra)).

(** Node representation safe for Neo4j *)
Definition node (self : instance) : list (string * exported) :=
  dict_merge
    (dict_merge (model_dict self ["properties"])
                (prod_map id Plain <$> __xdict__ self))
    [("_relationships", Relationships (_relationships self))].

End ARM.

(** Construction of a model of class [c] from a raw record. *)
Definition construct (c : class) (data : dict) : result instance :=
  match family_of c with
  | FNode => NodeBase.init c data
  | FAAD => AAD.init c data
  | FARM => ARM.init c data
  end.

(** ** Notions used to state the properties *)

(** The character [c] occurs in [s]. *)
Fixpoint has_char (c : ascii) (s : string) : bool :=
  match s with
  | EmptyString => false
  | String x s' => bool_decide (x = c) || has_char c s'
  end.

(** [a] glued in front of the first piece of a split. *)
Definition prepend (a : string) (l : list string) : list string :=
  match l with
  | p :: ps => (a +:+ p) :: ps
  | [] => [a]
  end.

(** The mapping a value is, when it is a [dict]. *)
Definition mapping_of (v : value) : option dict :=
  match v with
  | VDict d => Some d
  | _ => None
  end.

(** The [Relationship] objects among the elements of a list. *)
Definition edges (l : list item) : list Relationship.t :=
  omap (fun i => match i with Rel r => Some r | EmptyList => None end) l.

(** The relationships of one kind. *)
Definition edges_of_kind (k : RelationLabels) (l : list item) : list Relationship.t :=
  filter (fun r => Relationship.relation r = k) (edges l).

(** Reading a flat sequence [k1, v1, k2, v2, ...] back as items. *)
Fixpoint pairs (l : list value) : option dict :=
  match l with
  | [] => Some []
  | VStr k :: v :: l' => d ← pairs l'; Some ((k, v) :: d)
  | _ => None
  end.

(** A dotted path looked up in a tree of nested objects, segment by
    segment. *)
Fixpoint resolve (names : list string) (tree : value) : option value :=
  match names with
  | [] => Some tree
  | n :: names' =>
      match tree with
      | VObj d => v ← dict_get n d; resolve names' v
      | _ => None
      end
  end.

(** The final segment of a dotted path, and the value a path promotes out
    of a properties tree: the value it resolves to, [None] on a miss. *)
Definition field_name (path : string) : string :=
  default "" (last (Str.split_go "." path 0)).

Definition promoted (tree : value) (path : string) : value :=
  default VNone (resolve (Str.split_go "." path 0) tree).

(** The edge of one access policy, as the specification describes it: the
    policy's [objectId] as source (the very string, when it is one), the
    vault as target, and the policy's [permissions] as properties: the
    entries of the permission set when it is a tree or a plain mapping,
    nothing when it is anything else. *)
Definition policy_edge (self : instance) (policy : value) (r : Relationship.t) : Prop :=
  exists objectId permissions id,
    py_getattr policy "objectId" = Ok objectId /\
    py_getattr policy "permissions" = Ok permissions /\
    attr self "id" = Ok (VStr id) /\
    Relationship.relation r = HasAccessPolicies /\
    str_validator objectId = Ok (Relationship.source r) /\
    Relationship.target r = id /\
    (forall s, objectId = VStr s -> Relationship.source r = s) /\
    Relationship.properties r
    = match permissions with
      | VObj entries | VDict entries => Some entries
      | _ => None
      end.

(** ** Example records *)

Definition storage_id : string :=
  "/subscriptions/S/resourceGroups/G/providers/Microsoft.Storage/storageAccounts/acct".

(** A storage account whose id stops at the resource group. *)
Definition record_without_providers : dict :=
  [("id", VStr "/subscriptions/S/resourceGroups/G")].

(** A resource whose id is the bare word. *)
Definition record_bare_subscriptions : dict := [("id", VStr "subscriptions")].

(** A storage account in a resource group named [providers-rg]. *)
Definition providers_rg_id : string :=
  "/subscriptions/S/resourceGroups/providers-rg/providers/Microsoft.Storage/storageAccounts/acct".

Definition record_providers_rg : dict := [("id", VStr providers_rg_id)].

(** A storage account without [properties]. *)
Definition record_storage_bare : dict := [("id", VStr storage_id)].

(** A storage account with one of its extraction fields present. *)
Definition record_storage : dict :=
  [("id", VStr storage_id);
   ("properties", VDict [("accessTier", VStr "Hot")]);
   ("tags", VDict [("a", VStr "1"); ("b", VStr "2")])].

(** A resource group: no default edge, the default hook. *)
Definition record_resource_group : dict :=
  [("id", VStr "/subscriptions/S/resourceGroups/G"); ("name", VStr "G")].

(** An application with one owner. *)
Definition record_application : dict :=
  [("id", VStr "app1"); ("displayName", VStr "App"); ("appId", VStr "a1");
   ("owners", VList [VStr "u1"])].

(** An application whose id and owner are empty strings. *)
Definition record_application_empty : dict :=
  [("id", VStr ""); ("displayName", VStr "App"); ("appId", VStr "a1");
   ("owners", VList [VStr ""])].

(** A vault with two access policies. *)
Definition vault_id : string :=
  "/subscriptions/S/resourceGroups/G/providers/Microsoft.KeyVault/vaults/v".

Definition record_vault : dict :=
  [("id", VStr vault_id);
   ("properties",
     VDict [("vaultUri", VStr "https://v.vault.azure.net/");
            ("accessPolicies",
              VList [VDict [("objectId", VStr "p1");
                            ("permissions", VDict [("keys", VList [VStr "get"])])];
                     VDict [("objectId", VStr "p2");
                            ("permissions", VDict [("secrets", VList [VStr "list"])])]])])].

(** A vault record with [properties] but no [accessPolicies]. *)
Definition record_vault_no_policies : dict :=
  [("id", VStr vault_id);
   ("properties", VDict [("vaultUri", VStr "https://v.vault.azure.net/")])].

(** The instance that [record_vault] constructs. *)
Definition vault_instance : instance :=
  Eval vm_compute in
    match construct KeyVault record_vault with
    | Ok self => self
    | Raise _ => Instance KeyVault [] [] []
    end.

(** The instance that [record_storage] constructs. *)
Definition storage_instance : instance :=
  Eval vm_compute in
    match construct StorageAccount record_storage with
    | Ok self => self
    | Raise _ => Instance StorageAccount [] [] []
    end.

(** Tags in two iteration orders. *)
Definition tags_ab : dict := [("a", VStr "1"); ("b", VStr "2")].
Definition tags_ba : dict := [("b", VStr "2"); ("a", VStr "1")].

(** ** The model registry *)

(** [AADObject.__subclasses__()] and [ARMResource.__subclasses__()]: the
    direct subclasses, in the order of their definition. *)
Definition AADObject_subclasses : list class :=
  [AADApplication; AADServicePrincipal; AADGroup; AADRole; AADUser].

Definition ARMResource_subclasses : list class :=
  [Tenant; Subscription; ResourceGroup; KeyVault; StorageAccount].

(** A dict comprehension [{key(c): c for c in cs}]. *)
Definition dict_of {A} (key : A -> string) (cs : list A) : list (string * A) :=
  fold_left (fun acc c => dict_set (key c) c acc) cs [].

(** [c.__arm_type__] as a key; every subclass declares one (the base class
    has the placeholder [...]). *)
Definition arm_type_key (c : class) : string :=
  match __arm_type__ c with
  | Some t => t
  | None => "Ellipsis"
  end.

Section Registry.
(** [qualname_base] comes from [stormspotter.utils]; the registry is
    modelled for any such function. *)
Context (qualname_base : class -> string).

(** Returns models available for Neo4j ingestion *)
Definition get_available_models : list (string * class) :=
  let aad_models := dict_of qualname_base AADObject_subclasses in
  let arm_models := dict_of arm_type_key ARMResource_subclasses in
  dict_merge aad_models arm_models.
End Registry.

(** [model._labels()[0]] *)
Definition primary_label (c : class) : result string :=
  match _labels c with
  | Some ls => index ls 0
  | None => Raise TypeError
  end.

(** Returns a list of all labels from all available models:
    [sorted(list(set([...])))] of the primary labels of the models in
    [AVAILABLE_MODELS], given here as [models]. *)
Definition get_all_labels (models : list (string * class)) : result (list string) :=
  let* labels := mapM (fun kv => primary_label kv.2) models in
  Ok (merge_sort String.le (remove_dups labels)).

(** ** Further notions used to state the properties *)

(** A JSON-compatible raw value: no [DynamicObject] inside. *)
Fixpoint is_json (v : value) : bool :=
  match v with
  | VList l => forallb is_json l
  | VDict d => forallb (fun kv => is_json kv.2) d
  | VObj _ => false
  | _ => true
  end.

(** [sep.join(pieces)] *)
Fixpoint join (sep : string) (pieces : list string) : string :=
  match pieces with
  | [] => ""
  | [p] => p
  | p :: ps => p +:+ sep +:+ join sep ps
  end.

(** No plain mapping is left inside a value. *)
Fixpoint dict_free (v : value) : bool :=
  match v with
  | VList l => forallb dict_free l
  | VDict _ => false
  | VObj d => forallb (fun kv => dict_free kv.2) d
  | _ => true
  end.

(** A path of keys looked up in a raw record of nested mappings. *)
Fixpoint json_lookup (names : list string) (v : value) : option value :=
  match names with
  | [] => Some v
  | n :: names' =>
      match v with
      | VDict d => x ← dict_get n d; json_lookup names' x
      | _ => None
      end
  end.

(** [onPremisesExtensionAttributes] with its validator, as [AADUser]
    declares it. *)
Definition exattr_field : field :=
  Field "onPremisesExtensionAttributes" TListStr false true (VList [])
    (Some exattr_to_values_list).

(** The [Owns] and [MemberOf] edges of an identity object with id [id] and
    labels [sl], as [AADObject.__init__] builds them. *)
Definition owns_edge (id : string) (sl : list string) (owner : string) : item :=
  Rel (Relationship.mk id sl owner ["AADOBJECT"] Owns None).

Definition member_of_edge (id : string) (sl : list string) (member : string) : item :=
  Rel (Relationship.mk member ["AADOBJECT"] id sl MemberOf None).

(** What every edge of an instance with id [id] and labels [lc] looks
    like: one of four kinds, with the instance at a fixed end and fixed
    labels at the other. *)
Definition edge_invariant (id : string) (lc : list string) (r : Relationship.t) : Prop :=
  match Relationship.relation r with
  | Owns =>
      Relationship.source r = id /\ Relationship.source_label r = lc /\
      Relationship.target_label r = ["AADOBJECT"]
  | MemberOf | HasAccessPolicies =>
      Relationship.target r = id /\ Relationship.target_label r = lc /\
      Relationship.source_label r = ["AADOBJECT"]
  | Contains =>
      Relationship.target r = id /\ Relationship.target_label r = lc /\
      Relationship.source_label r = ["RESOURCEGROUP"; "ARMRESOURCE"]
  | _ => False
  end.

(** The default edge of a resource, as [ARMResource.__init__] builds it. *)
Definition contains_edge (rg id : string) (tl : list string) : item :=
  Rel (Relationship.mk rg ["RESOURCEGROUP"; "ARMRESOURCE"] id tl Contains None).

(** A user record without [onPremisesExtensionAttributes]. *)
Definition record_user : dict :=
  [("id", VStr "u1"); ("displayName", VStr "User"); ("accountEnabled", VBool true);
   ("creationType", VNone); ("mail", VStr "u@example.com");
   ("mailNickname", VStr "u"); ("onPremisesDistinguishedName", VNone);
   ("onPremisesDomainName", VNone); ("onPremisesSamAccountName", VNone);
   ("onPremisesSecurityIdentifier", VNone);
   ("onPremisesUserPrincipalName", VNone);
   ("refreshTokensValidFromDateTime", VStr "2020-01-01T00:00:00Z");
   ("userPrincipalName", VStr "u@example.com"); ("userType", VStr "Member")].

(** Extension attributes with a null and an empty slot. *)
Definition extension_attributes : list (string * option string) :=
  [("extensionAttribute1", Some "x"); ("extensionAttribute2", None);
   ("extensionAttribute3", Some ""); ("extensionAttribute4", Some "y")].

Definition record_extension_attributes : dict :=
  [("onPremisesExtensionAttributes",
    VDict [("extensionAttribute1", VStr "x"); ("extensionAttribute2", VNone);
           ("extensionAttribute3", VStr ""); ("extensionAttribute4", VStr "y")])].

(** A group with two owners and a member listed twice. *)
Definition record_group : dict :=
  [("id", VStr "g1"); ("displayName", VStr "Group");
   ("members", VList [VStr "u1"; VStr "u2"; VStr "u1"]);
   ("onPremisesSecurityIdentifier", VNone); ("organizationId", VStr "org");
   ("owners", VList [VStr "o1"; VStr "o2"]); ("securityEnabled", VBool true)].

(** The instance that [record_group] constructs. *)
Definition group_instance : instance :=
  Eval vm_compute in
    match construct AADGroup record_group with
    | Ok self => self
    | Raise _ => Instance AADGroup [] [] []
    end.

(** A vault one of whose access policies has no [objectId]. *)
Definition record_vault_bad_policy : dict :=
  [("id", VStr vault_id);
   ("properties",
     VDict [("accessPolicies",
              VList [VDict [("objectId", VStr "p1");
                            ("permissions", VDict [("keys", VList [VStr "get"])])];
                     VDict [("permissions", VDict [("keys", VList [VStr "get"])])]])])].

(** A subscription record. *)
Definition record_subscription : dict :=
  [("id", VStr "/subscriptions/S"); ("tenant_id", VStr "t");
   ("subscription_id", VStr "S"); ("state", VStr "Enabled")].

(** * Properties *)

(** ** Strings: [in] and [split] *)

Section StringFacts.

Lemma append_cons c (s t : string) : String c s +:+ t = String c (s +:+ t).
Proof. reflexivity. Qed.

Lemma append_nil_l (t : string) : "" +:+ t = t.
Proof. reflexivity. Qed.

Lemma append_nil_r (s : string) : s +:+ "" = s.
Proof. induction s as [|c s IH]; [done|]. by rewrite append_cons, IH. Qed.

Lemma append_assoc (a b c : string) : (a +:+ b) +:+ c = a +:+ (b +:+ c).
Proof. induction a as [|x a IH]; [done|]. by rewrite !append_cons, IH. Qed.

Lemma prefix_append (p s : string) : String.prefix p (p +:+ s) = true.
Proof.
  induction p as [|c p IH]; [by destruct s|].
  rewrite append_cons. simpl. destruct (ascii_dec c c); [exact IH|done].
Qed.

Lemma prefix_cons_ne c c' (p s : string) :
  c ≠ c' -> String.prefix (String c p) (String c' s) = false.
Proof. intros Hne. simpl. by destruct (ascii_dec c c'). Qed.

Lemma prefix_cons_eq c (p s : string) :
  String.prefix (String c p) (String c s) = String.prefix p s.
Proof. simpl. by destruct (ascii_dec c c). Qed.

(** A prefix test against [w] followed by a character that the pattern does
    not contain is decided inside [w]. *)
Lemma prefix_append_char (p w t : string) c :
  has_char c p = false ->
  String.prefix p (w +:+ String c t) = String.prefix p w.
Proof.
  revert w. induction p as [|x p IH]; intros w Hp; [by destruct w|].
  simpl in Hp. apply orb_false_elim in Hp as [Hx Hp].
  apply bool_decide_eq_false in Hx.
  destruct w as [|y w].
  - rewrite append_nil_l. by apply prefix_cons_ne.
  - rewrite append_cons. simpl. destruct (ascii_dec x y); [by apply IH|done].
Qed.

Lemma contains_prefix (sub s : string) :
  String.prefix sub s = true -> Str.contains sub s = true.
Proof. intros H. destruct s; simpl in *; rewrite H; done. Qed.

Lemma contains_append (sub a b : string) :
  Str.contains sub (a +:+ sub +:+ b) = true.
Proof.
  induction a as [|c a IH].
  - rewrite append_nil_l. apply contains_prefix, prefix_append.
  - rewrite append_cons. cbn [Str.contains]. rewrite IH. apply orb_true_r.
Qed.

Lemma split_go_nonempty (sep s : string) k : Str.split_go sep s k ≠ [].
Proof.
  revert k. induction s as [|c s IH]; intros k; [done|].
  cbn [Str.split_go]. destruct k as [|k]; [|apply IH].
  destruct (String.prefix sep (String c s)); [done|].
  specialize (IH 0). by destruct (Str.split_go sep s 0).
Qed.

Lemma prepend_cons_head c a l :
  l ≠ [] -> Str.cons_head c (prepend a l) = prepend (String c a) l.
Proof. by destruct l. Qed.

(** Passing over the rest of a matched separator. *)
Lemma split_go_skip (sep x s : string) :
  Str.split_go sep (x +:+ s) (String.length x) = Str.split_go sep s 0.
Proof.
  induction x as [|c x IH]; [done|].
  rewrite append_cons. exact IH.
Qed.

(** The scan at an occurrence of the separator. *)
Lemma split_go_match (sep s : string) :
  sep ≠ "" ->
  Str.split_go sep (sep +:+ s) 0 = "" :: Str.split_go sep s 0.
Proof.
  destruct sep as [|c sep]; [done|]. intros _.
  rewrite append_cons.
  change (Str.split_go (String c sep) (String c (sep +:+ s)) 0)
    with (if String.prefix (String c sep) (String c (sep +:+ s))
          then "" :: Str.split_go (String c sep) (sep +:+ s)
                       (String.length (String c sep) - 1)
          else Str.cons_head c (Str.split_go (String c sep) (sep +:+ s) 0)).
  rewrite prefix_cons_eq, prefix_append.
  replace (String.length (String c sep) - 1) with (String.length sep)
    by (simpl; lia).
  by rewrite split_go_skip.
Qed.

(** The scan over text in which the first character of the separator does
    not occur. *)
Lemma split_go_free (c : ascii) (sep w t : string) :
  has_char c w = false ->
  Str.split_go (String c sep) (w +:+ t) 0
  = prepend w (Str.split_go (String c sep) t 0).
Proof.
  induction w as [|x w IH]; intros Hw.
  - rewrite append_nil_l. pose proof (split_go_nonempty (String c sep) t 0).
    by destruct (Str.split_go (String c sep) t 0).
  - simpl in Hw. apply orb_false_elim in Hw as [Hx Hw].
    apply bool_decide_eq_false in Hx.
    rewrite append_cons.
    change (Str.split_go (String c sep) (String x (w +:+ t)) 0)
      with (if String.prefix (String c sep) (String x (w +:+ t))
            then "" :: Str.split_go (String c sep) (w +:+ t)
                         (String.length (String c sep) - 1)
            else Str.cons_head x (Str.split_go (String c sep) (w +:+ t) 0)).
    rewrite prefix_cons_ne by done.
    rewrite IH by done.
    apply prepend_cons_head, split_go_nonempty.
Qed.

(** The scan over one path segment [c ++ w] that is not an occurrence:
    [w] is free of [c] and what follows [c] does not start with the rest
    of the separator. *)
Lemma split_go_segment (c : ascii) (sep w t : string) :
  has_char c w = false ->
  String.prefix sep (w +:+ t) = false ->
  Str.split_go (String c sep) (String c (w +:+ t)) 0
  = prepend (String c w) (Str.split_go (String c sep) t 0).
Proof.
  intros Hw Hp.
  change (Str.split_go (String c sep) (String c (w +:+ t)) 0)
    with (if String.prefix (String c sep) (String c (w +:+ t))
          then "" :: Str.split_go (String c sep) (w +:+ t)
                       (String.length (String c sep) - 1)
          else Str.cons_head c (Str.split_go (String c sep) (w +:+ t) 0)).
  rewrite prefix_cons_eq, Hp, split_go_free by done.
  apply prepend_cons_head, split_go_nonempty.
Qed.

Lemma prepend_prepend a b l : prepend a (prepend b l) = prepend (a +:+ b) l.
Proof. destruct l; simpl; by rewrite ?append_assoc. Qed.

End StringFacts.

(** ** Results *)

Lemma bind_Ok {A B} (r : result A) (k : A -> result B) (b : B) :
  bind r k = Ok b -> exists a, r = Ok a /\ k a = Ok b.
Proof. destruct r as [a|e]; simpl; [eauto|discriminate]. Qed.

Lemma bind_raises_l {A B} (r : result A) (k : A -> result B) :
  raises r -> raises (bind r k).
Proof. intros [e ->]. by exists e. Qed.

Lemma bind_raises_r {A B} (r : result A) (k : A -> result B) :
  (forall a, r = Ok a -> raises (k a)) -> raises (bind r k).
Proof. destruct r as [a|e]; simpl; [eauto|intros _; by exists e]. Qed.

Lemma raises_not_Ok {A} (r : result A) (a : A) : raises r -> r ≠ Ok a.
Proof. intros [e ->]. discriminate. Qed.

(** Splits a hypothesis [let* x := r in k = Ok b] into its steps. *)
Ltac inv_bind H :=
  repeat match type of H with
  | bind _ _ = Ok _ =>
      let a := fresh "a" in
      let Ha := fresh "Hstep" in
      apply bind_Ok in H as (a & Ha & H)
  end.

Lemma mapM_Forall2 {A B} (f : A -> result B) (l : list A) (l' : list B) :
  mapM f l = Ok l' <-> Forall2 (fun x y => f x = Ok y) l l'.
Proof.
  revert l'. induction l as [|x l IH]; intros l'; simpl.
  - split; [intros [= <-]; constructor|by inversion 1].
  - split.
    + intros H. inv_bind H. injection H as <-. constructor; [done|by apply IH].
    + inversion 1 as [|? y ? ys Hx Hl]; subst. rewrite Hx. simpl.
      apply IH in Hl. by rewrite Hl.
Qed.

(** ** Dictionaries *)

Lemma dict_get_None {A} k (d : list (string * A)) :
  dict_get k d = None <-> k ∉ d.*1.
Proof.
  induction d as [|[k' v'] d IH]; simpl.
  - split; [intros _; apply not_elem_of_nil|done].
  - rewrite not_elem_of_cons. destruct (decide (k = k')) as [->|Hne].
    + split; [done|]. by intros [? _].
    + rewrite IH. split; [auto|]. by intros [_ ?].
Qed.

Lemma dict_get_set_eq {A} k (v : A) d : dict_get k (dict_set k v d) = Some v.
Proof.
  induction d as [|[k' v'] d IH]; simpl.
  - by rewrite decide_True.
  - destruct (decide (k = k')) as [->|Hne]; simpl.
    + by rewrite decide_True.
    + by rewrite decide_False.
Qed.

Lemma dict_get_set_ne {A} k k' (v : A) d :
  k ≠ k' -> dict_get k (dict_set k' v d) = dict_get k d.
Proof.
  intros Hne. induction d as [|[k'' v''] d IH]; simpl.
  - by rewrite decide_False.
  - destruct (decide (k' = k'')) as [->|Hne']; simpl.
    + by rewrite !decide_False.
    + destruct (decide (k = k'')); auto.
Qed.

Lemma dict_get_merge {A} k (a b : list (string * A)) :
  NoDup b.*1 ->
  dict_get k (dict_merge a b)
  = match dict_get k b with Some v => Some v | None => dict_get k a end.
Proof.
  unfold dict_merge. revert a. induction b as [|[k' v'] b IH]; intros a; [done|].
  rewrite fmap_cons, NoDup_cons. simpl. intros [Hk Hb].
  rewrite IH by done.
  destruct (decide (k = k')) as [->|Hne].
  - apply dict_get_None in Hk. rewrite Hk. apply dict_get_set_eq.
  - destruct (dict_get k b); [done|]. by apply dict_get_set_ne.
Qed.

Lemma dict_get_fmap {A B} (f : A -> B) k (d : list (string * A)) :
  dict_get k (prod_map id f <$> d) = f <$> dict_get k d.
Proof.
  induction d as [|[k' v'] d IH]; [done|]. simpl.
  destruct (decide (k = k')); [done|auto].
Qed.

Lemma dict_set_keys {A} k (v : A) d :
  k ∈ d.*1 -> (dict_set k v d).*1 = d.*1.
Proof.
  induction d as [|[k' v'] d IH]; [by inversion 1|].
  simpl. intros Hin. destruct (decide (k = k')) as [->|Hne]; [done|].
  simpl. f_equal. apply IH. apply elem_of_cons in Hin as [?|?]; done.
Qed.

Lemma dict_set_keys_new {A} k (v : A) d :
  k ∉ d.*1 -> (dict_set k v d).*1 = d.*1 ++ [k].
Proof.
  induction d as [|[k' v'] d IH]; [done|].
  simpl. rewrite not_elem_of_cons. intros [Hne Hin].
  rewrite decide_False by done. simpl. f_equal. by apply IH.
Qed.

Lemma dict_set_NoDup {A} k (v : A) d :
  NoDup d.*1 -> NoDup (dict_set k v d).*1.
Proof.
  intros Hd. destruct (decide (k ∈ d.*1)).
  - by rewrite dict_set_keys.
  - rewrite dict_set_keys_new by done. apply NoDup_app. split; [done|].
    split; [|apply NoDup_singleton]. intros x Hx ->%list_elem_of_singleton. done.
Qed.

(** ** Field validation *)

Lemma validate_model_Ok fs data values ok out :
  validate_model fs data values ok = Ok out ->
  ok = true /\
  exists vs, Forall2 (fun f v => field_value f data = Valid v) fs vs /\
             out = values ++ zip (fname <$> fs) vs.
Proof.
  revert values ok. induction fs as [|f fs IH]; intros values ok; simpl.
  - destruct ok; [|discriminate]. intros [= <-]. split; [done|].
    exists []. split; [constructor|]. by rewrite app_nil_r.
  - destruct (field_value f data) as [v| |e] eqn:Hf; [| |discriminate].
    + intros (-> & vs & Hvs & ->)%IH. split; [done|].
      exists (v :: vs). split; [by constructor|]. by rewrite <- app_assoc.
    + by intros ([=] & _)%IH.
Qed.

(** A required [str] field holds the validated string of the record's
    entry. *)
Lemma field_value_str n data v :
  field_value (req n TStr) data = Valid v ->
  exists x s, dict_get n data = Some x /\ str_validator x = Ok s /\ v = VStr s.
Proof.
  unfold field_value, validate_field. simpl.
  destruct (dict_get n data) as [x|]; [|discriminate].
  intros H. exists x.
  destruct x; simpl in H; try discriminate; injection H as <-; eauto.
Qed.

(** A required [List[str]] field holds a list of strings. *)
Lemma field_value_list_str n data v :
  field_value (req n TListStr) data = Valid v ->
  exists ss, v = VList (VStr <$> ss).
Proof.
  unfold field_value, validate_field. simpl.
  destruct (dict_get n data) as [x|]; [|discriminate].
  destruct x; simpl; try discriminate.
  destruct (mapM str_validator l) as [ss|]; simpl; [|discriminate].
  intros [= <-]. eauto.
Qed.

(** The [properties] field is the [DynamicObject] made of the record's
    entry, or [None]. *)
Lemma field_value_properties data v :
  field_value properties_field data = Valid v ->
  DynamicObject.from_dict (default VNone (dict_get "properties" data)) = Ok v /\
  (v = VNone \/ exists d, v = VObj d).
Proof.
  unfold field_value, validate_field. simpl. unfold props_to_obj.
  destruct (dict_get "properties" data) as [x|]; simpl.
  - destruct (DynamicObject.from_dict x) as [y|e]; [|by destruct e].
    destruct y; simpl; try discriminate; intros [= <-]; eauto.
  - intros [= <-]. eauto.
Qed.

Lemma from_dict_None x : DynamicObject.from_dict x = Ok VNone -> x = VNone.
Proof.
  destruct x; simpl; try discriminate; [done| |].
  - destruct (mapM _ _); simpl; discriminate.
  - destruct (mapM _ _); simpl; discriminate.
Qed.

Lemma from_dict_Obj x d' :
  DynamicObject.from_dict x = Ok (VObj d') ->
  exists d, x = VDict d /\ d'.*1 = d.*1 /\
            Forall2 (fun kv kv' => kv'.1 = kv.1 /\
                                   DynamicObject.from_dict kv.2 = Ok kv'.2) d d'.
Proof.
  destruct x; simpl; try discriminate.
  - destruct (mapM _ _); simpl; discriminate.
  - destruct (mapM _ d) as [kvs|] eqn:Hm; simpl; [|discriminate].
    intros [= ->]. exists d. split; [done|].
    apply mapM_Forall2 in Hm.
    assert (Forall2 (fun kv kv' => kv'.1 = kv.1 /\
              DynamicObject.from_dict kv.2 = Ok kv'.2) d d') as HF.
    { eapply Forall2_impl; [exact Hm|]. intros [k v] [k' v'] H. simpl in *.
      inv_bind H. injection H as <- <-. done. }
    split; [|done]. clear Hm. induction HF as [|? ? ? ? [H _] _ IH]; [done|].
    rewrite !fmap_cons. by f_equal.
Qed.

Lemma fields_of_arm c :
  family_of c = FARM ->
  exists extra, fields_of c = own_fields ARMResource ++ extra.
Proof.
  destruct c; try discriminate; intros _;
    first [by exists [] | by eexists].
Qed.

Lemma fields_of_aad c :
  family_of c = FAAD ->
  exists extra, fields_of c = own_fields AADObject ++ extra.
Proof.
  destruct c; try discriminate; intros _;
    first [by exists [] | by eexists].
Qed.

(** The validated fields of a resource: the five base fields first. *)
Lemma arm_values c data values :
  family_of c = FARM ->
  validate_model (fields_of c) data [] true = Ok values ->
  exists id location name properties tags rest,
    values = ("id", VStr id) :: ("location", location) :: ("name", name)
             :: ("properties", properties) :: ("tags", tags) :: rest /\
    field_value (req "id" TStr) data = Valid (VStr id) /\
    field_value properties_field data = Valid properties.
Proof.
  intros [extra Hfs]%fields_of_arm (_ & vs & Hvs & ->)%validate_model_Ok.
  rewrite Hfs in *. simpl in Hvs.
  repeat match goal with
  | H : Forall2 _ (_ :: _) _ |- _ =>
      apply Forall2_cons_inv_l in H as (? & ? & ? & H & ->)
  end.
  match goal with
  | H : field_value (req "id" TStr) data = Valid ?v |- _ =>
      destruct (field_value_str _ _ _ H) as (? & id & _ & _ & ->)
  end.
  simpl. by repeat eexists.
Qed.

(** The validated fields of an identity object: [id] and [displayName]
    first. *)
Lemma aad_values c data values :
  family_of c = FAAD ->
  validate_model (fields_of c) data [] true = Ok values ->
  exists id displayName rest,
    values = ("id", VStr id) :: ("displayName", displayName) :: rest /\
    field_value (req "id" TStr) data = Valid (VStr id).
Proof.
  intros [extra Hfs]%fields_of_aad (_ & vs & Hvs & ->)%validate_model_Ok.
  rewrite Hfs in *. simpl in Hvs.
  repeat match goal with
  | H : Forall2 _ (_ :: _) _ |- _ =>
      apply Forall2_cons_inv_l in H as (? & ? & ? & H & ->)
  end.
  match goal with
  | H : field_value (req "id" TStr) data = Valid ?v |- _ =>
      destruct (field_value_str _ _ _ H) as (? & id & _ & _ & ->)
  end.
  simpl. by repeat eexists.
Qed.

(** ** Relationship construction *)

Lemma Relationship_init_Ok src sl tgt tl rel props r :
  Relationship.init src sl tgt tl rel props = Ok r ->
  exists s g sl' tl',
    str_validator src = Ok s /\ str_validator tgt = Ok g /\
    sl = Some sl' /\ tl = Some tl' /\
    r = Relationship.mk s sl' g tl' rel
          (mapping_of (Relationship.format_properties props)).
Proof.
  unfold Relationship.init.
  destruct (str_validator src) as [s|]; [|discriminate].
  destruct sl as [sl'|]; [|discriminate].
  destruct (str_validator tgt) as [g|]; [|discriminate].
  destruct tl as [tl'|]; [|discriminate].
  destruct props; simpl; intros [= <-]; by exists s, g, sl', tl'.
Qed.

(** ** The id accessors of a resource *)

Section Accessors.
Context (self : instance) (id : string).
Hypothesis Hid : attr self "id" = Ok (VStr id).

Lemma subscription_unfold :
  ARM.subscription self
  = if Str.contains "subscriptions" id
    then let* s := index (Str.split_go "/" id 0) 2 in Ok (VStr s)
    else Ok VNone.
Proof. unfold ARM.subscription. rewrite Hid. reflexivity. Qed.

Lemma resourcegroup_unfold :
  ARM.resourcegroup self
  = if Str.contains "providers" id
    then let* g := index (Str.split_go "/providers" id 0) 0 in Ok (VStr g)
    else Ok VNone.
Proof. unfold ARM.resourcegroup. rewrite Hid. reflexivity. Qed.

(** [resourcegroup] returns for every id: a split has a first piece. *)
Lemma resourcegroup_total : exists v, ARM.resourcegroup self = Ok v.
Proof.
  rewrite resourcegroup_unfold. destruct (Str.contains _ _); [|eauto].
  pose proof (split_go_nonempty "/providers" id 0) as Hne.
  destruct (Str.split_go "/providers" id 0); [done|]. simpl. eauto.
Qed.

Lemma resourcegroup_cases v :
  ARM.resourcegroup self = Ok v -> v = VNone \/ exists rg, v = VStr rg.
Proof.
  rewrite resourcegroup_unfold. destruct (Str.contains _ _).
  - intros H. inv_bind H. injection H as <-. eauto.
  - intros [= <-]. eauto.
Qed.

(** Without the word [providers] in the id, [resourcegroup] is [None];
    without [subscriptions], [subscription] is [None]. *)
Lemma resourcegroup_None :
  Str.contains "providers" id = false -> ARM.resourcegroup self = Ok VNone.
Proof. intros H. by rewrite resourcegroup_unfold, H. Qed.

Lemma subscription_None :
  Str.contains "subscriptions" id = false -> ARM.subscription self = Ok VNone.
Proof. intros H. by rewrite subscription_unfold, H. Qed.

(** With [subscriptions] in the id and fewer than three pieces between
    slashes, [subscription] raises. *)
Lemma subscription_IndexError :
  Str.contains "subscriptions" id = true ->
  length (Str.split_go "/" id 0) <= 2 ->
  ARM.subscription self = Raise IndexError.
Proof.
  intros H Hlen. rewrite subscription_unfold, H. unfold index.
  by rewrite lookup_ge_None_2.
Qed.

(** The default edge of a class that maps to its resource group. *)
Lemma resourcegroup_edge_mapped (l : list item) :
  __map_to_resourcegroup__ (cls self) = true ->
  ARM.resourcegroup_edge self = Ok l ->
  exists rg sl tl,
    ARM.resourcegroup self = Ok (VStr rg) /\
    l = [Rel (Relationship.mk rg sl id tl Contains None)].
Proof.
  unfold ARM.resourcegroup_edge. intros -> H. inv_bind H.
  rewrite Hid in *. simplify_eq.
  destruct (resourcegroup_cases _ Hstep) as [->|[rg ->]].
  - apply Relationship_init_Ok in Hstep1 as (? & ? & ? & ? & [=] & _).
  - apply Relationship_init_Ok in Hstep1
      as (s & g & sl & tl & [= <-] & [= <-] & _ & _ & ->).
    by exists rg, sl, tl.
Qed.

Lemma resourcegroup_edge_raises :
  __map_to_resourcegroup__ (cls self) = true ->
  Str.contains "providers" id = false ->
  ARM.resourcegroup_edge self = Raise ValidationError.
Proof.
  unfold ARM.resourcegroup_edge. intros -> H.
  rewrite resourcegroup_None by done. simpl. rewrite Hid. simpl.
  unfold Relationship.init. simpl.
  by destruct (_labels ResourceGroup), (_labels (cls self)).
Qed.

Lemma resourcegroup_edge_unmapped :
  __map_to_resourcegroup__ (cls self) = false ->
  ARM.resourcegroup_edge self = Ok [].
Proof. unfold ARM.resourcegroup_edge. by intros ->. Qed.

End Accessors.

(** An id of the form [/subscriptions/S/resourceGroups/G/providers/...],
    [S] and [G] being path segments that do not begin with [providers]. *)
Section ArmId.
Context (S G rest : string).
Hypothesis HS : has_char "/" S = false.
Hypothesis HG : has_char "/" G = false.
Hypothesis HSp : String.prefix "providers" S = false.
Hypothesis HGp : String.prefix "providers" G = false.

Let rg : string := "/subscriptions/" +:+ S +:+ "/resourceGroups/" +:+ G.
Let id : string := rg +:+ "/providers/" +:+ rest.

Lemma arm_id_flat :
  id = "/subscriptions/" +:+ S +:+ "/resourceGroups/" +:+ G
       +:+ "/providers/" +:+ rest.
Proof. subst id rg. by rewrite !append_assoc. Qed.

Lemma arm_id_contains :
  Str.contains "subscriptions" id = true /\ Str.contains "providers" id = true.
Proof.
  split.
  - apply (contains_append "subscriptions" "/"
             ("/" +:+ S +:+ "/resourceGroups/" +:+ G +:+ "/providers/" +:+ rest)).
  - replace id with ((rg +:+ "/") +:+ "providers" +:+ ("/" +:+ rest))
      by (subst id; by rewrite append_assoc).
    apply contains_append.
Qed.

Lemma arm_id_split_slash :
  index (Str.split_go "/" id 0) 2 = Ok S.
Proof.
  rewrite arm_id_flat.
  change ("/subscriptions/" +:+ S +:+ "/resourceGroups/" +:+ G
          +:+ "/providers/" +:+ rest) with
    ("" +:+ "/" +:+ "subscriptions" +:+ "/" +:+ S +:+ "/"
     +:+ ("resourceGroups/" +:+ G +:+ "/providers/" +:+ rest)).
  rewrite (split_go_free "/" "" "" _ eq_refl), (split_go_match "/") by done.
  rewrite (split_go_free "/" "" "subscriptions" _ eq_refl),
    (split_go_match "/") by done.
  rewrite (split_go_free "/" "" S _ HS), (split_go_match "/") by done.
  cbn [prepend]. rewrite (append_nil_r S). reflexivity.
Qed.

Lemma arm_id_split_providers :
  index (Str.split_go "/providers" id 0) 0 = Ok rg.
Proof.
  rewrite arm_id_flat.
  change ("/subscriptions/" +:+ S +:+ "/resourceGroups/" +:+ G
          +:+ "/providers/" +:+ rest) with
    (String "/" ("subscriptions" +:+
     String "/" (S +:+
     String "/" ("resourceGroups" +:+
     String "/" (G +:+ String "/" ("providers" +:+ String "/" rest)))))).
  rewrite (split_go_segment "/" "providers" "subscriptions") by done.
  rewrite (split_go_segment "/" "providers" S); [|done|].
  2:{ by rewrite (prefix_append_char "providers" S _ "/"). }
  rewrite (split_go_segment "/" "providers" "resourceGroups") by done.
  rewrite (split_go_segment "/" "providers" G); [|done|].
  2:{ by rewrite (prefix_append_char "providers" G _ "/"). }
  change (String "/" ("providers" +:+ String "/" rest))
    with ("/providers" +:+ String "/" rest).
  rewrite (split_go_match "/providers") by done.
  rewrite !prepend_prepend. cbn [prepend]. rewrite append_nil_r.
  unfold index. cbn [lookup list_lookup]. f_equal.
  subst rg. by rewrite !append_assoc.
Qed.

End ArmId.

(** ** Construction of a resource *)

(** The guard of the extraction block is false on every instance: the
    private attribute is empty, whatever the properties are. *)
Lemma extract_self self properties :
  ARM.extract (ARM.self__xfields__ self) properties = Ok [].
Proof.
  unfold ARM.extract, ARM.self__xfields__. by destruct (truthy properties).
Qed.

Lemma arm_init_Ok c data self :
  family_of c = FARM ->
  ARM.init c data = Ok self ->
  exists id values properties xdict contains extra,
    validate_model (fields_of c) data [] true = Ok values /\
    dict_get "id" values = Some (VStr id) /\
    field_value (req "id" TStr) data = Valid (VStr id) /\
    dict_get "properties" values = Some properties /\
    field_value properties_field data = Valid properties /\
    xdict = [] /\
    ARM.resourcegroup_edge (Instance c values xdict []) = Ok contains /\
    __relationships__ (Instance c values xdict contains) = Ok extra /\
    self = Instance c values xdict (contains ++ extra).
Proof.
  intros Hc H. unfold ARM.init in H. inv_bind H. injection H as <-.
  destruct (arm_values _ _ _ Hc Hstep)
    as (id & loc & name & properties & tags & rest & -> & Hid & Hprops).
  unfold attr in Hstep0. simpl in Hstep0. injection Hstep0 as <-.
  match goal with
  | H : ARM.extract _ _ = Ok _ |- _ => rewrite extract_self in H; injection H as <-
  end.
  exists id. by repeat eexists.
Qed.

(** A class that maps to its resource group cannot be constructed from an id
    without [providers]: the default edge has no source. *)
Lemma construct_without_providers c data id :
  family_of c = FARM ->
  __map_to_resourcegroup__ c = true ->
  dict_get "id" data = Some (VStr id) ->
  Str.contains "providers" id = false ->
  raises (construct c data).
Proof.
  intros Hc Hmap Hid Hno. unfold construct. rewrite Hc. unfold ARM.init.
  apply bind_raises_r. intros values Hv.
  destruct (arm_values _ _ _ Hc Hv)
    as (id' & loc & name & properties & tags & rest & -> & Hid' & _).
  assert (id' = id) as ->.
  { apply field_value_str in Hid' as (x & s & Hx & Hs & [= ->]).
    rewrite Hid in Hx. injection Hx as <-. by injection Hs. }
  apply bind_raises_r. intros ? _. apply bind_raises_r. intros xdict _.
  apply bind_raises_l. exists ValidationError.
  by apply resourcegroup_edge_raises with (id := id).
Qed.

(** The relationships of a constructed resource: the default edge, then
    what the hook contributed. *)
Lemma arm_relationships c data self :
  family_of c = FARM ->
  construct c data = Ok self ->
  exists defaults extra,
    ARM.resourcegroup_edge (Instance c (fields self) (__xdict__ self) []) = Ok defaults /\
    __relationships__ (Instance c (fields self) (__xdict__ self) defaults) = Ok extra /\
    _relationships self = defaults ++ extra.
Proof.
  intros Hc H. unfold construct in H. rewrite Hc in H.
  apply arm_init_Ok in H
    as (id & values & props & xdict & contains & extra & _ & _ & _ & _ & _ & _
        & Hedge & Hhook & ->); [|done].
  by exists contains, extra.
Qed.

(** ** The relationship hook *)

Lemma keyvault_hook_Ok self id extra :
  attr self "id" = Ok (VStr id) ->
  KeyVault__relationships__ self = Ok extra ->
  exists properties accessPolicies policies hook,
    attr self "properties" = Ok properties /\
    py_getattr properties "accessPolicies" = Ok accessPolicies /\
    py_iter accessPolicies = Ok policies /\
    extra = Rel <$> hook /\
    Forall2 (policy_edge self) policies hook.
Proof.
  unfold KeyVault__relationships__. intros Hid H. inv_bind H.
  exists a, a0, a1. apply mapM_Forall2 in H.
  cut (exists hook, extra = Rel <$> hook /\ Forall2 (policy_edge self) a1 hook).
  { intros (hook & -> & HF). by exists hook. }
  clear Hstep0 Hstep1. induction H as [|policy i policies items Hp _ IH].
  - by exists [].
  - destruct IH as (hook & -> & HF). inv_bind Hp. injection Hp as <-.
    apply Relationship_init_Ok in Hstep3
      as (s & g & sl & tl & Hs & Hg & _ & _ & ->).
    eexists (_ :: hook). split; [reflexivity|]. constructor; [|done].
    match goal with
    | H : attr self "id" = Ok ?v |- _ =>
        is_var v; rewrite Hid in H; injection H as <-
    end.
    simpl in Hg. injection Hg as <-.
    unfold policy_edge. eexists _, _, id.
    do 6 (split; [by eauto|]). cbn [Relationship.source Relationship.properties].
    split.
    + intros s' ->. simpl in Hs. by injection Hs.
    + match goal with |- mapping_of (Relationship.format_properties ?p) = _ =>
        by destruct p
      end.
Qed.

(** No [Contains] edge comes from a hook. *)
Lemma hook_no_contains self id extra :
  attr self "id" = Ok (VStr id) ->
  __relationships__ self = Ok extra -> edges_of_kind Contains extra = [].
Proof.
  unfold __relationships__. intros Hid H.
  assert (KeyVault__relationships__ self = Ok extra \/ extra = [EmptyList])
    as [Hk| ->].
  { destruct (cls self); first [by left | right; by injection H]. }
  - apply (keyvault_hook_Ok _ id) in Hk
      as (_ & _ & policies & hook & _ & _ & _ & -> & HF); [|done].
    clear H. induction HF as [|p r ps rs Hr _ IH]; [done|].
    destruct Hr as (_ & _ & _ & _ & _ & _ & Hrel & _).
    unfold edges_of_kind, edges in *. rewrite fmap_cons. simpl.
    rewrite filter_cons_False; [exact IH|]. by rewrite Hrel.
  - done.
Qed.

(** ** Resource ids and the default edge *)

(** C3, at an id the accessors do not handle: for the id ["subscriptions"]
    (a resource with that id is constructed), [subscription] raises
    [IndexError] instead of returning [None]; and for an id that has the
    word [providers] but no [/providers] segment, [resourcegroup] returns
    the whole id instead of [None]. *)
Theorem subscription_raises_on_short_id :
  exists self,
    construct ResourceGroup record_bare_subscriptions = Ok self /\
    attr self "id" = Ok (VStr "subscriptions") /\
    ARM.subscription self = Raise IndexError /\
    ARM.resourcegroup (Instance ResourceGroup [("id", VStr "/x/myproviders")] [] [])
    = Ok (VStr "/x/myproviders").
Proof. eexists. split; [reflexivity|]. by repeat split. Qed.

(** C2, at a record whose id has no [/providers] segment: [resourcegroup]
    is [None], and the constructor of a class that maps to its resource
    group raises a validation error instead of leaving the edge out. *)
Theorem storage_account_without_providers_raises :
  exists values,
    validate_model (fields_of StorageAccount) record_without_providers [] true
    = Ok values /\
    __map_to_resourcegroup__ StorageAccount = true /\
    ARM.resourcegroup (Instance StorageAccount values [] []) = Ok VNone /\
    construct StorageAccount record_without_providers = Raise ValidationError.
Proof. eexists. split; [reflexivity|]. by repeat split. Qed.

(** X18: for a constructed resource of a class that maps to its resource
    group whose id is [/subscriptions/S/resourceGroups/G/providers/...],
    with path segments [S] and [G] that do not begin with [providers]:
    [subscription] is [S], [resourcegroup] is
    [/subscriptions/S/resourceGroups/G], and the relationship list has
    exactly one [Contains] edge, from that resource group to the id. *)
Lemma contains_edge_of_arm_id c data self (S G rest : string) :
  family_of c = FARM ->
  __map_to_resourcegroup__ c = true ->
  has_char "/" S = false ->
  has_char "/" G = false ->
  String.prefix "providers" S = false ->
  String.prefix "providers" G = false ->
  let rg := "/subscriptions/" +:+ S +:+ "/resourceGroups/" +:+ G in
  let id := rg +:+ "/providers/" +:+ rest in
  dict_get "id" data = Some (VStr id) ->
  construct c data = Ok self ->
  ARM.subscription self = Ok (VStr S) /\
  ARM.resourcegroup self = Ok (VStr rg) /\
  exists r, edges_of_kind Contains (_relationships self) = [r] /\
            Relationship.source r = rg /\ Relationship.target r = id.
Proof.
  intros Hc Hmap HS HG HSp HGp rg id Hdata H.
  unfold construct in H. rewrite Hc in H.
  apply arm_init_Ok in H
    as (id' & values & props & xdict & contains & extra & _ & Hid & Hfv & _ & _
        & _ & Hedge & Hhook & ->); [|done].
  assert (id' = id) as ->.
  { apply field_value_str in Hfv as (x & s & Hx & Hs & [= ->]).
    rewrite Hdata in Hx. injection Hx as <-. by injection Hs. }
  assert (Str.contains "subscriptions" id = true) as Hsub
    by exact (proj1 (arm_id_contains S G rest)).
  assert (Str.contains "providers" id = true) as Hprov
    by exact (proj2 (arm_id_contains S G rest)).
  assert (index (Str.split_go "/" id 0) 2 = Ok S) as Hslash
    by exact (arm_id_split_slash S G rest HS).
  assert (index (Str.split_go "/providers" id 0) 0 = Ok rg) as Hsplit
    by exact (arm_id_split_providers S G rest HS HG HSp HGp).
  assert (forall x rels, attr (Instance c values x rels) "id" = Ok (VStr id)) as Hattr.
  { intros. unfold attr. simpl. by rewrite Hid. }
  assert (forall x rels, ARM.resourcegroup (Instance c values x rels) = Ok (VStr rg))
    as Hrg.
  { intros. rewrite (resourcegroup_unfold _ id) by done.
    by rewrite Hprov, Hsplit. }
  split; [|split].
  - rewrite (subscription_unfold _ id) by done. by rewrite Hsub, Hslash.
  - apply Hrg.
  - apply (resourcegroup_edge_mapped _ id) in Hedge
      as (rg' & sl & tl & Hrg' & ->); [|done..].
    rewrite Hrg in Hrg'. injection Hrg' as <-.
    exists (Relationship.mk rg sl id tl Contains None). split; [|done].
    unfold edges_of_kind, edges. simpl.
    rewrite filter_cons_True by done. f_equal.
    by apply (hook_no_contains _ id) in Hhook.
Qed.

(** C6, at an id whose resource group is named [providers-rg]: the id has
    the form [/subscriptions/S/resourceGroups/G/providers/...], and the
    [Contains] edge comes from [/subscriptions/S/resourceGroups], not from
    the resource group. *)
Theorem contains_edge_of_providers_rg :
  providers_rg_id
  = "/subscriptions/" +:+ "S" +:+ "/resourceGroups/" +:+ "providers-rg"
    +:+ "/providers/" +:+ "Microsoft.Storage/storageAccounts/acct" /\
  exists self r,
    construct StorageAccount record_providers_rg = Ok self /\
    ARM.subscription self = Ok (VStr "S") /\
    ARM.resourcegroup self = Ok (VStr "/subscriptions/S/resourceGroups") /\
    edges_of_kind Contains (_relationships self) = [r] /\
    Relationship.source r = "/subscriptions/S/resourceGroups" /\
    Relationship.target r = providers_rg_id.
Proof.
  split; [reflexivity|]. eexists _, _. split; [reflexivity|]. by repeat split.
Qed.

(** ** Key vaults *)

(** The shape of a constructed key vault: the default edge, then one edge
    per item that iterating [properties.accessPolicies] gives. *)
Lemma keyvault_init_Ok data self :
  construct KeyVault data = Ok self ->
  exists id properties accessPolicies policies contains hook,
    attr self "id" = Ok (VStr id) /\
    attr self "properties" = Ok properties /\
    field_value properties_field data = Valid properties /\
    py_getattr properties "accessPolicies" = Ok accessPolicies /\
    py_iter accessPolicies = Ok policies /\
    Relationship.relation contains = Contains /\
    _relationships self = Rel contains :: (Rel <$> hook) /\
    Forall2 (policy_edge self) policies hook.
Proof.
  intros H. unfold construct in H. simpl in H.
  apply arm_init_Ok in H
    as (id & values & props & xdict & contains & extra & _ & Hid & _ & Hp & Hfv
        & _ & Hedge & Hhook & ->); [|done].
  assert (forall x rels, attr (Instance KeyVault values x rels) "id" = Ok (VStr id))
    as Hattr.
  { intros. unfold attr. simpl. by rewrite Hid. }
  apply (resourcegroup_edge_mapped _ id) in Hedge
    as (rg & sl & tl & _ & ->); [|done..].
  unfold __relationships__ in Hhook. simpl in Hhook.
  apply (keyvault_hook_Ok _ id) in Hhook
    as (props' & ap & policies & hook & Hp' & Hap & Hiter & -> & HF); [|done].
  unfold attr in Hp'. simpl in Hp'. rewrite Hp in Hp'. injection Hp' as <-.
  exists id, props, ap, policies, (Relationship.mk rg sl id tl Contains None), hook.
  split; [apply Hattr|]. split; [unfold attr; simpl; by rewrite Hp|].
  by repeat split.
Qed.

Lemma edges_of_kind_hook self policies (hook : list Relationship.t) :
  Forall2 (policy_edge self) policies hook ->
  filter (fun r => Relationship.relation r = HasAccessPolicies) hook = hook.
Proof.
  induction 1 as [|p r ps rs Hr _ IH]; [done|].
  destruct Hr as (_ & _ & _ & _ & _ & _ & Hrel & _).
  rewrite filter_cons_True by done. by f_equal.
Qed.

Lemma edges_Rel (l : list Relationship.t) : edges (Rel <$> l) = l.
Proof. induction l as [|r l IH]; [done|]. unfold edges in *. simpl. by f_equal. Qed.

(** C9: a constructed key vault whose [properties.accessPolicies] is a
    sequence of N entries has, after its default [Contains] edge, exactly
    the N edges of the hook, one per entry and in order: each is a
    [HasAccessPolicies] edge from the entry's [objectId] to the vault's id
    that carries the entry's [permissions] as its properties, namely the
    entries of the permission set as a plain mapping (a permission set that
    is no mapping at all leaves the properties absent). *)
Theorem keyvault_access_policy_edges data self properties policies :
  construct KeyVault data = Ok self ->
  attr self "properties" = Ok properties ->
  py_getattr properties "accessPolicies" = Ok (VList policies) ->
  exists contains hook,
    _relationships self = Rel contains :: (Rel <$> hook) /\
    Relationship.relation contains = Contains /\
    edges_of_kind HasAccessPolicies (_relationships self) = hook /\
    length hook = length policies /\
    Forall2 (policy_edge self) policies hook.
Proof.
  intros H Hprops Hpol.
  apply keyvault_init_Ok in H
    as (id & props & ap & policies' & contains & hook & _ & Hp & _ & Hap & Hiter
        & Hc & Hrels & HF).
  rewrite Hprops in Hp. injection Hp as <-.
  rewrite Hpol in Hap. injection Hap as <-.
  simpl in Hiter. injection Hiter as <-.
  exists contains, hook. split; [done|]. split; [done|].
  split; [|split; [by apply Forall2_length in HF|done]].
  rewrite Hrels. unfold edges_of_kind.
  change (edges (Rel contains :: (Rel <$> hook)))
    with (contains :: edges (Rel <$> hook)).
  rewrite edges_Rel, filter_cons_False by (by rewrite Hc).
  by apply edges_of_kind_hook in HF.
Qed.

Lemma keyvault_access_policy_edges_witness :
  construct KeyVault record_vault = Ok vault_instance /\
  edges_of_kind HasAccessPolicies (_relationships vault_instance)
  = [Relationship.mk "p1" ["AADOBJECT"] vault_id ["KEYVAULT"; "ARMRESOURCE"]
       HasAccessPolicies (Some [("keys", VList [VStr "get"])]);
     Relationship.mk "p2" ["AADOBJECT"] vault_id ["KEYVAULT"; "ARMRESOURCE"]
       HasAccessPolicies (Some [("secrets", VList [VStr "list"])])] /\
  exists contains hook,
    _relationships vault_instance = Rel contains :: (Rel <$> hook) /\
    Relationship.relation contains = Contains /\
    edges_of_kind HasAccessPolicies (_relationships vault_instance) = hook /\
    length hook = 2 /\
    Forall2 (policy_edge vault_instance)
      [VObj [("objectId", VStr "p1");
             ("permissions", VObj [("keys", VList [VStr "get"])])];
       VObj [("objectId", VStr "p2");
             ("permissions", VObj [("secrets", VList [VStr "list"])])]]
      hook.
Proof.
  split; [reflexivity|]. split; [reflexivity|].
  exact (keyvault_access_policy_edges record_vault vault_instance _ _
           eq_refl eq_refl eq_refl).
Defined.

(** The same count on the raw record: [from_dict] keeps the length of the
    [accessPolicies] list. *)
Lemma from_dict_lookup (d d' : dict) k v :
  Forall2 (fun kv kv' => kv'.1 = kv.1 /\
                         DynamicObject.from_dict kv.2 = Ok kv'.2) d d' ->
  dict_get k d = Some v ->
  exists v', dict_get k d' = Some v' /\ DynamicObject.from_dict v = Ok v'.
Proof.
  induction 1 as [|[k1 v1] [k2 v2] d d' [Hk Hv] _ IH]; [done|].
  simpl in *. subst k2. destruct (decide (k = k1)); [|exact IH].
  intros [= <-]. eauto.
Qed.

Lemma from_dict_list l v' :
  DynamicObject.from_dict (VList l) = Ok v' ->
  exists l', v' = VList l' /\ length l' = length l.
Proof.
  simpl. intros H. inv_bind H. injection H as <-.
  apply mapM_Forall2, Forall2_length in Hstep. eauto.
Qed.

(** X17: a key vault constructed from a record whose
    [properties.accessPolicies] is a list has as many [HasAccessPolicies]
    edges as the list has entries (none for an empty list) and exactly one
    [Contains] edge. *)
Lemma keyvault_edges_of_record data self d raw :
  dict_get "properties" data = Some (VDict d) ->
  dict_get "accessPolicies" d = Some (VList raw) ->
  construct KeyVault data = Ok self ->
  length (edges_of_kind HasAccessPolicies (_relationships self)) = length raw /\
  length (edges_of_kind Contains (_relationships self)) = 1.
Proof.
  intros Hdata Hraw H.
  apply keyvault_init_Ok in H
    as (id & props & ap & policies & contains & hook & _ & _ & Hfv & Hap & Hiter
        & Hc & Hrels & HF).
  apply field_value_properties in Hfv as [Hfrom _].
  rewrite Hdata in Hfrom. simpl default in Hfrom.
  assert (exists d', props = VObj d') as [d' ->].
  { simpl in Hfrom. inv_bind Hfrom. injection Hfrom as <-. eauto. }
  apply from_dict_Obj in Hfrom as (d0 & [= <-] & _ & HF2).
  destruct (from_dict_lookup _ _ _ _ HF2 Hraw) as (v' & Hv' & Hl).
  apply from_dict_list in Hl as (l' & -> & Hlen).
  simpl in Hap. rewrite Hv' in Hap. injection Hap as <-.
  simpl in Hiter. injection Hiter as <-.
  rewrite Hrels. unfold edges_of_kind.
  change (edges (Rel contains :: (Rel <$> hook)))
    with (contains :: edges (Rel <$> hook)).
  rewrite edges_Rel, filter_cons_False, filter_cons_True by (by rewrite Hc).
  pose proof (edges_of_kind_hook _ _ _ HF) as Hk. rewrite Hk.
  split; [apply Forall2_length in HF; lia|].
  assert (filter (fun r => Relationship.relation r = Contains) hook = []) as ->; [|done].
  clear -HF. induction HF as [|p r ps rs Hr _ IH]; [done|].
  destruct Hr as (_ & _ & _ & _ & _ & _ & Hrel & _).
  rewrite filter_cons_False; [done|]. by rewrite Hrel.
Qed.

Lemma keyvault_edges_of_record_witness :
  (exists d raw,
      dict_get "properties" record_vault = Some (VDict d) /\
      dict_get "accessPolicies" d = Some (VList raw) /\ length raw = 2) /\
  construct KeyVault record_vault = Ok vault_instance /\
  length (edges_of_kind HasAccessPolicies (_relationships vault_instance)) = 2 /\
  length (edges_of_kind Contains (_relationships vault_instance)) = 1.
Proof.
  split; [eexists _, _; by repeat split|]. split; [reflexivity|].
  exact (keyvault_edges_of_record record_vault vault_instance
           [("vaultUri", VStr "https://v.vault.azure.net/");
            ("accessPolicies",
              VList [VDict [("objectId", VStr "p1");
                            ("permissions", VDict [("keys", VList [VStr "get"])])];
                     VDict [("objectId", VStr "p2");
                            ("permissions", VDict [("secrets", VList [VStr "list"])])]])]
           [VDict [("objectId", VStr "p1");
                   ("permissions", VDict [("keys", VList [VStr "get"])])];
            VDict [("objectId", VStr "p2");
                   ("permissions", VDict [("secrets", VList [VStr "list"])])]]
           eq_refl eq_refl eq_refl).
Defined.

(** The hook of a vault whose [properties] is [None] or has no
    [accessPolicies] raises [AttributeError]. *)
Lemma keyvault_hook_raises self properties :
  attr self "properties" = Ok properties ->
  py_getattr properties "accessPolicies" = Raise AttributeError ->
  KeyVault__relationships__ self = Raise AttributeError.
Proof.
  unfold KeyVault__relationships__. intros H1 H2.
  rewrite H1. simpl. by rewrite H2.
Qed.

(** C10: a key-vault record whose [properties] is absent (missing or
    [None]), or is a mapping without [accessPolicies], cannot be
    constructed: the constructor raises.  The [properties] field itself is
    optional: left out, it validates to [None]. *)
Theorem keyvault_without_access_policies_raises data :
  dict_get "properties" data = None \/
  dict_get "properties" data = Some VNone \/
  (exists d, dict_get "properties" data = Some (VDict d) /\
             dict_get "accessPolicies" d = None) ->
  raises (construct KeyVault data) /\
  (dict_get "properties" data = None ->
   field_value properties_field data = Valid VNone).
Proof.
  intros Hcases. split; [|intros Hnone; unfold field_value; simpl; by rewrite Hnone].
  unfold construct. simpl. unfold ARM.init.
  apply bind_raises_r. intros values Hv.
  destruct (arm_values KeyVault _ _ eq_refl Hv)
    as (id & loc & name & properties & tags & rest & -> & _ & Hp).
  apply field_value_properties in Hp as [Hfrom Hshape].
  assert (py_getattr properties "accessPolicies" = Raise AttributeError) as Hget.
  { destruct Hshape as [->|[d' ->]]; [done|].
    apply from_dict_Obj in Hfrom as (d & Hd & Hkeys & _).
    destruct Hcases as [H|[H|(d0 & H & Hno)]]; rewrite H in Hd; try discriminate.
    injection Hd as <-. simpl.
    apply dict_get_None in Hno. rewrite <- Hkeys in Hno.
    apply dict_get_None in Hno. by rewrite Hno. }
  apply bind_raises_r. intros p [= <-].
  apply bind_raises_r. intros xdict _.
  apply bind_raises_r. intros contains _.
  apply bind_raises_l. exists AttributeError.
  by apply keyvault_hook_raises with (properties := properties).
Qed.

Lemma keyvault_without_access_policies_raises_witness :
  (dict_get "properties" record_vault_no_policies = None \/
   dict_get "properties" record_vault_no_policies = Some VNone \/
   (exists d, dict_get "properties" record_vault_no_policies = Some (VDict d) /\
              dict_get "accessPolicies" d = None)) /\
  raises (construct KeyVault record_vault_no_policies).
Proof.
  assert (dict_get "properties" record_vault_no_policies = None \/
          dict_get "properties" record_vault_no_policies = Some VNone \/
          (exists d, dict_get "properties" record_vault_no_policies = Some (VDict d) /\
                     dict_get "accessPolicies" d = None)) as H.
  { right. right. eexists. split; reflexivity. }
  split; [exact H|].
  exact (proj1 (keyvault_without_access_policies_raises _ H)).
Defined.

(** ** Extraction fields *)

Lemma getattr_fold_Raise names e :
  fold_left (fun acc name => let* o := acc in py_getattr o name) names (Raise e)
  = Raise e.
Proof. induction names as [|n names IH]; [done|]. exact IH. Qed.

(** [attrgetter] walks the tree as [resolve] does. *)
Lemma getattr_fold_resolve names tree :
  fold_left (fun acc name => let* o := acc in py_getattr o name) names (Ok tree)
  = match resolve names tree with
    | Some v => Ok v
    | None => Raise AttributeError
    end.
Proof.
  revert tree. induction names as [|n names IH]; intros tree; [done|].
  cbn [fold_left resolve]. simpl bind.
  destruct tree; simpl; try apply getattr_fold_Raise.
  destruct (dict_get n d) as [v|]; simpl; [apply IH|apply getattr_fold_Raise].
Qed.

Lemma attrgetter_promoted path tree :
  try_except (attrgetter path tree) VNone = promoted tree path.
Proof.
  unfold attrgetter, promoted. simpl. rewrite getattr_fold_resolve.
  by destruct (resolve _ tree).
Qed.

Lemma index_last_split path :
  index_last (Str.split_go "." path 0) = Ok (field_name path).
Proof.
  unfold index_last, field_name.
  pose proof (split_go_nonempty "." path 0) as Hne.
  destruct (last (Str.split_go "." path 0)) eqn:Hl; [done|].
  by apply last_None in Hl.
Qed.

(** One pass of the extraction loop never raises. *)
Lemma promote_Ok tree d path :
  ARM.promote tree (Ok d) path
  = Ok (dict_set (field_name path) (promoted tree path) d).
Proof.
  unfold ARM.promote. simpl. rewrite index_last_split. simpl.
  by rewrite attrgetter_promoted.
Qed.

Lemma promote_fold tree paths d :
  fold_left (ARM.promote tree) paths (Ok d)
  = Ok (fold_left (fun acc p => dict_set (field_name p) (promoted tree p) acc)
          paths d).
Proof.
  revert d. induction paths as [|p paths IH]; intros d; [done|].
  cbn [fold_left]. rewrite promote_Ok. apply IH.
Qed.

(** The extraction block returns for every list of paths and every tree. *)
Lemma extract_total xfields tree : exists xdict, ARM.extract xfields tree = Ok xdict.
Proof.
  unfold ARM.extract. destruct (_ && _); [|eauto].
  rewrite promote_fold. eauto.
Qed.

Section PromoteFold.
Context (tree : value).

Let step (acc : dict) (p : string) : dict :=
  dict_set (field_name p) (promoted tree p) acc.

Lemma promote_fold_other paths d k :
  k ∉ field_name <$> paths ->
  dict_get k (fold_left step paths d) = dict_get k d.
Proof.
  revert d. induction paths as [|p paths IH]; intros d; [done|].
  rewrite fmap_cons, not_elem_of_cons. intros [Hne Hk]. simpl.
  rewrite IH by done. by apply dict_get_set_ne.
Qed.

Lemma promote_fold_lookup paths d path :
  NoDup (field_name <$> paths) ->
  path ∈ paths ->
  dict_get (field_name path) (fold_left step paths d)
  = Some (promoted tree path).
Proof.
  revert d. induction paths as [|p paths IH]; intros d; [by inversion 2|].
  rewrite fmap_cons, NoDup_cons. intros [Hp Hnd] Hin. simpl.
  apply elem_of_cons in Hin as [->|Hin].
  - rewrite promote_fold_other by done. apply dict_get_set_eq.
  - by apply IH.
Qed.

End PromoteFold.

(** The declared extraction fields have distinct final segments, none of
    them the key of the relationship list. *)
Lemma xfields_names c :
  NoDup (field_name <$> __xfields__ c) /\
  "_relationships" ∉ field_name <$> __xfields__ c.
Proof.
  destruct c; split;
    first [ apply NoDup_nil_2 | apply not_elem_of_nil
          | apply (bool_decide_unpack _); by vm_compute ].
Qed.

(** The loop itself does what its comment says: run on a list of paths with
    distinct final segments and on a properties tree, it leaves under the
    final segment of each path the value the path resolves to, and [None]
    where it resolves to nothing.  It would promote the declared fields if
    [self.__xfields__] held them. *)
Lemma extract_of_paths xfields tree xdict path :
  NoDup (field_name <$> xfields) ->
  path ∈ xfields ->
  ARM.extract xfields (VObj tree) = Ok xdict ->
  dict_get (field_name path) xdict
  = Some (default VNone (resolve (Str.split_go "." path 0) (VObj tree))).
Proof.
  intros Hnd Hin Hx. unfold ARM.extract in Hx. simpl truthy in Hx.
  rewrite bool_decide_eq_false_2 in Hx
    by (intros E; rewrite E in Hin; by apply elem_of_nil in Hin).
  simpl in Hx. rewrite promote_fold in Hx. injection Hx as <-.
  rewrite (promote_fold_lookup (VObj tree) xfields [] path Hnd Hin).
  unfold promoted. by destruct (resolve _ _).
Qed.

(** No constructed resource has a promoted field. *)
Lemma construct_xdict_empty c data self :
  family_of c = FARM -> construct c data = Ok self -> __xdict__ self = [].
Proof.
  intros Hc H. unfold construct in H. rewrite Hc in H.
  apply arm_init_Ok in H
    as (rid & values & props & xdict & contains & extra & _ & _ & _ & _ & _
        & -> & _ & _ & ->); done.
Qed.

(** C8, at a storage account whose record holds
    [properties = {accessTier: Hot}]: the class declares the paths
    [accessTier], which resolves to [Hot] in the properties of the
    constructed instance, and [creationTime], which resolves to nothing;
    yet construction stores no promoted field at all, and the node export
    has neither [accessTier = Hot] nor [creationTime = None]: both keys are
    missing. *)
Theorem declared_extraction_fields_not_promoted :
  construct StorageAccount record_storage = Ok storage_instance /\
  attr storage_instance "properties" = Ok (VObj [("accessTier", VStr "Hot")]) /\
  "accessTier" ∈ __xfields__ StorageAccount /\
  resolve (Str.split_go "." "accessTier" 0) (VObj [("accessTier", VStr "Hot")])
  = Some (VStr "Hot") /\
  "creationTime" ∈ __xfields__ StorageAccount /\
  resolve (Str.split_go "." "creationTime" 0) (VObj [("accessTier", VStr "Hot")])
  = None /\
  __xdict__ storage_instance = [] /\
  dict_get "accessTier" (ARM.node storage_instance) = None /\
  dict_get "creationTime" (ARM.node storage_instance) = None.
Proof.
  split; [reflexivity|]. split; [reflexivity|].
  split; [simpl; left|]. split; [reflexivity|].
  split; [simpl; right; left|]. split; [reflexivity|].
  split; [exact (construct_xdict_empty StorageAccount record_storage _ eq_refl eq_refl)|].
  split; reflexivity.
Qed.

(** ** Tags *)

Lemma flatten_items_length (d : dict) :
  length (flatten_items d) = 2 * length d.
Proof. induction d as [|[k v] d IH]; simpl in *; lia. Qed.

Lemma pairs_flatten_items (d : dict) : pairs (flatten_items d) = Some d.
Proof.
  induction d as [|[k v] d IH]; [done|].
  unfold flatten_items in *. simpl. by rewrite IH.
Qed.

Lemma flatten_items_lookup (d : dict) i k v :
  d !! i = Some (k, v) ->
  flatten_items d !! (2 * i) = Some (VStr k) /\
  flatten_items d !! (2 * i + 1) = Some v.
Proof.
  revert i. induction d as [|[k' v'] d IH]; intros i; [done|].
  destruct i as [|i]; simpl.
  - by intros [= -> ->].
  - intros H. apply IH in H as [H1 H2].
    replace (i + S (i + 0)) with (S (2 * i)) by lia. simpl.
    split; [exact H1|]. by replace (i + (i + 0) + 1) with (2 * i + 1) by lia.
Qed.

Lemma convert_to_list_items (d : dict) :
  d ≠ [] -> convert_to_list (VDict d) = Ok (VList (flatten_items d)).
Proof. intros Hd. unfold convert_to_list. simpl. by rewrite bool_decide_eq_false_2. Qed.

(** C7: a non-empty tags mapping, handed over in any iteration order, is
    flattened to an even-length sequence that alternates keys and values
    and whose consecutive pairs give back the items in that order, hence
    the mapping itself; an absent or empty mapping is normalized to
    [None]. *)
Theorem tags_flatten_roundtrip (tags : gmap string value) (items : dict) :
  tags ≠ ∅ ->
  NoDup items.*1 ->
  list_to_map items = tags ->
  (exists flat,
      convert_to_list (VDict items) = Ok (VList flat) /\
      Nat.Even (length flat) /\
      (forall i k v, items !! i = Some (k, v) ->
                     flat !! (2 * i) = Some (VStr k) /\
                     flat !! (2 * i + 1) = Some v) /\
      pairs flat = Some items /\
      (list_to_map <$> pairs flat) = Some tags) /\
  convert_to_list VNone = Ok VNone /\
  convert_to_list (VDict []) = Ok VNone.
Proof.
  intros Hne Hnd Htags. split; [|done].
  exists (flatten_items items).
  assert (items ≠ []) as Hitems by (intros ->; by subst tags).
  split; [|split; [|split; [|split]]].
  - by apply convert_to_list_items.
  - exists (length items). apply flatten_items_length.
  - intros i k v. apply flatten_items_lookup.
  - apply pairs_flatten_items.
  - rewrite pairs_flatten_items. simpl. by rewrite Htags.
Qed.

(** The two iteration orders of one mapping are flattened to sequences that
    reconstruct the same mapping. *)
Lemma tags_order_irrelevant (items items' : dict) :
  NoDup items.*1 -> items ≡ₚ items' ->
  (list_to_map <$> pairs (flatten_items items) : option (gmap string value))
  = list_to_map <$> pairs (flatten_items items').
Proof.
  intros Hnd Hperm. rewrite !pairs_flatten_items. simpl. f_equal.
  by apply list_to_map_proper.
Qed.

Lemma flatten_items_cons k v (d : dict) :
  flatten_items ((k, v) :: d) = VStr k :: v :: flatten_items d.
Proof. reflexivity. Qed.

Lemma flatten_items_strings (items : list (string * string)) :
  flatten_items (prod_map id VStr <$> items)
  = VStr <$> flat_map (fun kv => [kv.1; kv.2]) items.
Proof.
  induction items as [|[k v] items IH]; [done|].
  rewrite fmap_cons. cbn [prod_map fst snd]. rewrite flatten_items_cons, IH.
  reflexivity.
Qed.

Lemma mapM_str_validator (ss : list string) :
  mapM str_validator (VStr <$> ss) = Ok ss.
Proof.
  induction ss as [|x ss IH]; [done|].
  rewrite fmap_cons. cbn [mapM]. rewrite IH. reflexivity.
Qed.

(** What the [tags] field stores for tags whose values are strings: the
    flat sequence itself. *)
Lemma tags_field_value (items : list (string * string)) :
  items ≠ [] ->
  let d : dict := prod_map id VStr <$> items in
  field_value tags_field [("tags", VDict d)] = Valid (VList (flatten_items d)).
Proof.
  intros Hne d. unfold field_value, validate_field. simpl.
  rewrite convert_to_list_items by (subst d; by destruct items).
  subst d. rewrite flatten_items_strings. simpl.
  by rewrite mapM_str_validator.
Qed.

Lemma tags_flatten_roundtrip_witness :
  (list_to_map tags_ab : gmap string value) ≠ ∅ /\
  NoDup tags_ba.*1 /\
  (list_to_map tags_ba : gmap string value) = list_to_map tags_ab /\
  exists flat,
    convert_to_list (VDict tags_ba) = Ok (VList flat) /\
    Nat.Even (length flat) /\
    (list_to_map <$> pairs flat) = Some (list_to_map tags_ab : gmap string value).
Proof.
  assert ((list_to_map tags_ab : gmap string value) ≠ ∅) as H1.
  { intros E. apply (f_equal (lookup "a")) in E. discriminate E. }
  assert (NoDup tags_ba.*1) as H2.
  { apply (bool_decide_unpack _). by vm_compute. }
  assert ((list_to_map tags_ba : gmap string value) = list_to_map tags_ab) as H3.
  { apply list_to_map_proper; [exact H2|].
    unfold tags_ba, tags_ab. apply Permutation_swap. }
  split; [exact H1|]. split; [exact H2|]. split; [exact H3|].
  destruct (tags_flatten_roundtrip _ tags_ba H1 H2 H3)
    as [(flat & Hc & He & _ & _ & Hm) _].
  exists flat. by repeat split.
Defined.

(** ** Relationship ids *)

(** C5 as stated fails: a [Relationship] whose source and target are empty
    strings is constructed, on its own and inside the construction of an
    application whose id and owner are empty. *)
Lemma relationship_with_empty_ids :
  (exists r,
     Relationship.init (VStr "") (Some ["AADOBJECT"]) (VStr "") (Some ["AADOBJECT"])
       Owns VNone = Ok r /\
     Relationship.source r = "" /\ Relationship.target r = "") /\
  (exists self r,
     construct AADApplication record_application_empty = Ok self /\
     Rel r ∈ _relationships self /\
     Relationship.source r = "" /\ Relationship.target r = "").
Proof.
  split.
  - eexists. by repeat split.
  - eexists _, _. split; [reflexivity|]. split; [left|done].
Qed.

(** C5, amended: the source and target of a constructed [Relationship] are
    the strings that the given source and target validate to; [None] is
    not accepted for either, the empty string is. *)
Theorem relationship_ids_are_strings src sl tgt tl rel props r :
  Relationship.init src sl tgt tl rel props = Ok r ->
  src ≠ VNone /\ tgt ≠ VNone /\
  str_validator src = Ok (Relationship.source r) /\
  str_validator tgt = Ok (Relationship.target r).
Proof.
  intros (s & g & sl' & tl' & Hs & Hg & _ & _ & ->)%Relationship_init_Ok.
  simpl. repeat split; try done; by intros ->.
Qed.

Lemma relationship_ids_are_strings_witness :
  Relationship.init (VStr "u1") (Some ["AADOBJECT"]) (VStr "g1")
    (Some ["AADGROUP"; "AADOBJECT"]) MemberOf VNone
  = Ok (Relationship.mk "u1" ["AADOBJECT"] "g1" ["AADGROUP"; "AADOBJECT"]
          MemberOf None) /\
  VStr "u1" ≠ VNone /\ VStr "g1" ≠ VNone.
Proof.
  split; [reflexivity|].
  pose proof (relationship_ids_are_strings (VStr "u1") (Some ["AADOBJECT"])
                (VStr "g1") (Some ["AADGROUP"; "AADOBJECT"]) MemberOf VNone _
                eq_refl) as (H1 & H2 & _).
  by split.
Defined.

(** ** Identity objects *)

Lemma aad_init_Ok c data self :
  family_of c = FAAD ->
  AAD.init c data = Ok self ->
  exists id values owns member_of extra,
    validate_model (fields_of c) data [] true = Ok values /\
    dict_get "id" values = Some (VStr id) /\
    AAD.owner_edges (Instance c values [] []) = Ok owns /\
    AAD.member_edges (Instance c values [] owns) = Ok member_of /\
    __relationships__ (Instance c values [] (owns ++ member_of)) = Ok extra /\
    self = Instance c values [] (owns ++ member_of ++ extra).
Proof.
  intros Hc H. unfold AAD.init in H. inv_bind H. injection H as <-.
  destruct (aad_values _ _ _ Hc Hstep) as (id & name & rest & -> & Hid).
  exists id. by repeat eexists.
Qed.

(** What the owner loop appends: for each owner an [Owns] edge whose source
    is the instance's own id and whose target is the owner. *)
Lemma owner_edges_Ok self id owns :
  attr self "id" = Ok (VStr id) ->
  AAD.owner_edges self = Ok owns ->
  exists owners rs,
    py_iter (AAD.getattr_default self "owners") = Ok owners /\
    owns = Rel <$> rs /\
    Forall2 (fun owner r =>
               Relationship.relation r = Owns /\
               Relationship.source r = id /\
               str_validator owner = Ok (Relationship.target r))
            owners rs.
Proof.
  unfold AAD.owner_edges. intros Hid H. inv_bind H.
  exists a. apply mapM_Forall2 in H.
  cut (exists rs, owns = Rel <$> rs /\
         Forall2 (fun owner r =>
               Relationship.relation r = Owns /\
               Relationship.source r = id /\
               str_validator owner = Ok (Relationship.target r)) a rs).
  { intros (rs & -> & HF). by exists rs. }
  clear Hstep. induction H as [|owner i owners items Ho _ IH].
  - by exists [].
  - destruct IH as (rs & -> & HF). inv_bind Ho. injection Ho as <-.
    match goal with
    | H : attr self "id" = Ok ?v |- _ =>
        is_var v; rewrite Hid in H; injection H as <-
    end.
    match goal with
    | H : Relationship.init _ _ _ _ _ _ = Ok _ |- _ =>
        apply Relationship_init_Ok in H
          as (s & g & sl & tl & [= <-] & Hg & _ & _ & ->)
    end.
    eexists (_ :: rs). split; [reflexivity|]. by constructor.
Qed.

(** What the member loop appends: for each member a [MemberOf] edge from the
    member to the instance. *)
Lemma member_edges_Ok self id member_of :
  attr self "id" = Ok (VStr id) ->
  AAD.member_edges self = Ok member_of ->
  exists members rs,
    py_iter (AAD.getattr_default self "members") = Ok members /\
    member_of = Rel <$> rs /\
    Forall2 (fun member r =>
               Relationship.relation r = MemberOf /\
               str_validator member = Ok (Relationship.source r) /\
               Relationship.target r = id)
            members rs.
Proof.
  unfold AAD.member_edges. intros Hid H. inv_bind H.
  exists a. apply mapM_Forall2 in H.
  cut (exists rs, member_of = Rel <$> rs /\
         Forall2 (fun member r =>
               Relationship.relation r = MemberOf /\
               str_validator member = Ok (Relationship.source r) /\
               Relationship.target r = id) a rs).
  { intros (rs & -> & HF). by exists rs. }
  clear Hstep. induction H as [|member i members items Hm _ IH].
  - by exists [].
  - destruct IH as (rs & -> & HF). inv_bind Hm. injection Hm as <-.
    match goal with
    | H : attr self "id" = Ok ?v |- _ =>
        is_var v; rewrite Hid in H; injection H as <-
    end.
    match goal with
    | H : Relationship.init _ _ _ _ _ _ = Ok _ |- _ =>
        apply Relationship_init_Ok in H
          as (s & g & sl & tl & Hs & [= <-] & _ & _ & ->)
    end.
    eexists (_ :: rs). split; [reflexivity|]. by constructor.
Qed.

(** The hook of every class but [KeyVault] is the inherited one. *)
Lemma default_hook self :
  cls self ≠ KeyVault -> __relationships__ self = Ok [EmptyList].
Proof. unfold __relationships__. by destruct (cls self). Qed.

(** The relationships of a constructed identity object: the [Owns] edges,
    then the [MemberOf] edges, then the one element of the default hook. *)
Lemma aad_relationships c data self :
  family_of c = FAAD ->
  construct c data = Ok self ->
  exists id owners members,
    attr self "id" = Ok (VStr id) /\
    edges_of_kind Owns (_relationships self) = owners /\
    edges_of_kind MemberOf (_relationships self) = members /\
    _relationships self = (Rel <$> owners) ++ (Rel <$> members) ++ [EmptyList] /\
    Forall (fun r => Relationship.source r = id) owners /\
    Forall (fun r => Relationship.target r = id) members.
Proof.
  intros Hc H. unfold construct in H. rewrite Hc in H.
  apply aad_init_Ok in H
    as (id & values & owns & member_of & extra & _ & Hid & Ho & Hm & Hhook & ->);
    [|done].
  assert (forall rels, attr (Instance c values [] rels) "id" = Ok (VStr id)) as Hattr.
  { intros. unfold attr. simpl. by rewrite Hid. }
  apply (owner_edges_Ok _ id) in Ho as (os & rs & _ & -> & HFo); [|done].
  apply (member_edges_Ok _ id) in Hm as (ms & rs' & _ & -> & HFm); [|done].
  rewrite default_hook in Hhook by (simpl; by destruct c).
  injection Hhook as <-.
  exists id, rs, rs'. split; [done|].
  assert (forall k (l : list Relationship.t),
            edges_of_kind k (Rel <$> l) = filter (fun r => Relationship.relation r = k) l)
    as Hek.
  { intros k l. unfold edges_of_kind, edges. f_equal.
    induction l as [|r l IH]; [done|]. simpl. by f_equal. }
  assert (forall k l l', edges_of_kind k (l ++ l')
                         = edges_of_kind k l ++ edges_of_kind k l') as Happ.
  { intros. unfold edges_of_kind, edges. by rewrite omap_app, filter_app. }
  assert (filter (fun r => Relationship.relation r = Owns) rs = rs
          /\ filter (fun r => Relationship.relation r = MemberOf) rs = []) as [Ho1 Ho2].
  { clear -HFo. induction HFo as [|o r os rs (Hr & _) _ [IH1 IH2]]; [done|].
    rewrite !filter_cons, Hr. simpl. by rewrite IH1, IH2. }
  assert (filter (fun r => Relationship.relation r = MemberOf) rs' = rs'
          /\ filter (fun r => Relationship.relation r = Owns) rs' = []) as [Hm1 Hm2].
  { clear -HFm. induction HFm as [|o r os rs (Hr & _) _ [IH1 IH2]]; [done|].
    rewrite !filter_cons, Hr. simpl. by rewrite IH1, IH2. }
  assert (forall k, edges_of_kind k [EmptyList] = []) as Hnil by done.
  simpl. rewrite !Happ, !Hek, !Hnil, Ho1, Ho2, Hm1, Hm2, !app_nil_r.
  split; [done|]. split; [done|]. split; [done|]. split.
  - clear -HFo. induction HFo as [|o r os rs (_ & Hs & _) _ IH]; by constructor.
  - clear -HFm. induction HFm as [|o r os rs (_ & _ & Ht) _ IH]; by constructor.
Qed.

(** C1, at an application with one owner: the [Owns] edge goes from the
    application to its owner, not from the owner to the application. *)
Theorem owns_edge_of_application :
  exists self,
    construct AADApplication record_application = Ok self /\
    attr self "id" = Ok (VStr "app1") /\
    attr self "owners" = Ok (VList [VStr "u1"]) /\
    _relationships self
    = [Rel (Relationship.mk "app1" ["AADAPPLICATION"; "AADOBJECT"]
              "u1" ["AADOBJECT"] Owns None);
       EmptyList].
Proof. eexists. split; [reflexivity|]. by repeat split. Qed.

(** ** The default hook *)

(** The default edges come first and what the hook yields follows them, for
    an identity object and for a resource. *)
Lemma default_edges_precede_hook c data self :
  construct c data = Ok self ->
  exists defaults extra,
    _relationships self = defaults ++ extra /\
    (family_of c = FNode -> defaults = [] /\ extra = []) /\
    (family_of c <> FNode ->
     __relationships__ (Instance c (fields self) (__xdict__ self) defaults)
     = Ok extra).
Proof.
  intros H. destruct (family_of c) eqn:Hc.
  - unfold construct in H. rewrite Hc in H. unfold NodeBase.init in H.
    inv_bind H. injection H as <-. by exists [], [].
  - unfold construct in H. rewrite Hc in H.
    apply aad_init_Ok in H
      as (id & values & owns & member_of & extra & _ & _ & _ & _ & Hhook & ->);
      [|done].
    exists (owns ++ member_of), extra. simpl. by rewrite app_assoc.
  - destruct (arm_relationships _ _ _ Hc H) as (defaults & extra & _ & Hh & Hr).
    exists defaults, extra. by repeat split.
Qed.

(** C4, at a resource group (no default edge, no hook of its own): the
    inherited hook yields one element, an empty list, and the relationship
    sequence of the constructed instance is that one element, which is not
    a relationship. *)
Theorem default_hook_yields_empty_list :
  (forall self, Node__relationships__ self = Ok [EmptyList]) /\
  exists self,
    construct ResourceGroup record_resource_group = Ok self /\
    ARM.resourcegroup_edge self = Ok [] /\
    __relationships__ self = Ok [EmptyList] /\
    _relationships self = [EmptyList] /\
    edges (_relationships self) = [].
Proof.
  split; [done|]. eexists. split; [reflexivity|]. by repeat split.
Qed.

(** ** Evaluations *)

Example split_slash :
  Str.split "/subscriptions/S/resourceGroups/G" "/"
  = Ok [""; "subscriptions"; "S"; "resourceGroups"; "G"].
Proof. reflexivity. Qed.

Example split_providers :
  Str.split "/a/providers/b/providersX/c/providers" "/providers"
  = Ok ["/a"; "/b"; "X/c"; ""].
Proof. reflexivity. Qed.

Example split_overlap : Str.split "aaa" "aa" = Ok [""; "a"].
Proof. reflexivity. Qed.

Example labels_of_classes :
  _labels Node = None /\
  _labels AADObject = Some ["AADOBJECT"] /\
  _labels ResourceGroup = Some ["RESOURCEGROUP"; "ARMRESOURCE"] /\
  _labels KeyVault = Some ["KEYVAULT"; "ARMRESOURCE"].
Proof. by repeat split. Qed.

Example str_of_numbers :
  str_validator (VInt (-42)) = Ok "-42" /\ str_validator (VInt 0) = Ok "0".
Proof. by split. Qed.

Lemma contains_edge_of_arm_id_witness :
  family_of StorageAccount = FARM /\
  __map_to_resourcegroup__ StorageAccount = true /\
  has_char "/" "S" = false /\ has_char "/" "G" = false /\
  String.prefix "providers" "S" = false /\ String.prefix "providers" "G" = false /\
  dict_get "id" record_storage = Some (VStr storage_id) /\
  construct StorageAccount record_storage = Ok storage_instance /\
  ARM.subscription storage_instance = Ok (VStr "S") /\
  ARM.resourcegroup storage_instance = Ok (VStr "/subscriptions/S/resourceGroups/G") /\
  exists r, edges_of_kind Contains (_relationships storage_instance) = [r] /\
            Relationship.source r = "/subscriptions/S/resourceGroups/G" /\
            Relationship.target r = storage_id.
Proof.
  do 8 (split; [reflexivity|]).
  exact (contains_edge_of_arm_id StorageAccount record_storage storage_instance
           "S" "G" "Microsoft.Storage/storageAccounts/acct"
           eq_refl eq_refl eq_refl eq_refl eq_refl eq_refl eq_refl eq_refl).
Defined.

(** A vault record without [properties] passes field validation and fails
    in the hook. *)
Example vault_without_properties :
  (exists values,
     validate_model (fields_of KeyVault) [("id", VStr vault_id)] [] true = Ok values) /\
  construct KeyVault [("id", VStr vault_id)] = Raise AttributeError /\
  construct KeyVault record_vault_no_policies = Raise AttributeError.
Proof. split; [by eexists|by split]. Qed.


(** * Further properties of the models *)

(** ** Labels *)

(** X1: every class but [Node] has labels: its own upper-cased name first,
    and last the label of its family's root class ([AADOBJECT] or
    [ARMRESOURCE]), which is the only label of the root itself; [Node] has
    none. *)
Theorem labels_end_with_family_root (c : class) :
  match family_of c with
  | FNode => _labels c = None
  | FAAD =>
      exists ls, _labels c = Some ls /\ head ls = Some (Str.upper (qualname c)) /\
                 last ls = Some "AADOBJECT" /\ _labels AADObject = Some ["AADOBJECT"] /\
                 (length ls = 1 <-> c = AADObject)
  | FARM =>
      exists ls, _labels c = Some ls /\ head ls = Some (Str.upper (qualname c)) /\
                 last ls = Some "ARMRESOURCE" /\ _labels ARMResource = Some ["ARMRESOURCE"] /\
                 (length ls = 1 <-> c = ARMResource)
  end.
Proof.
  destruct c; simpl; try done;
    (eexists; split; [reflexivity|]; repeat split; try done; simpl; try lia;
     discriminate).
Qed.

(** ** Field validation: exceptions that pass through *)

(** A field without a validator of its own never lets an exception through:
    it is valid or a validation error. *)
Lemma field_value_no_pre f data e :
  pre f = None -> field_value f data <> Abort e.
Proof.
  intros Hpre. unfold field_value, validate_field. rewrite Hpre.
  destruct (dict_get (fname f) data) as [v|].
  - destruct v; simpl; try (destruct (allow_none f); discriminate);
      by destruct (validate_type (ftyp f) _).
  - by destruct (required f).
Qed.

(** An exception that a field lets through leaves [validate_model] as it
    is, whatever the other fields are. *)
Lemma validate_model_abort fs1 f fs2 data values ok e :
  Forall (fun g => forall e', field_value g data <> Abort e') fs1 ->
  field_value f data = Abort e ->
  validate_model (fs1 ++ f :: fs2) data values ok = Raise e.
Proof.
  intros H Hf. revert values ok.
  induction H as [|g fs1 Hg _ IH]; intros values ok; simpl.
  - by rewrite Hf.
  - destruct (field_value g data) as [v| |e'] eqn:E; [apply IH..|].
    by destruct (Hg e').
Qed.

(** A field that is a validation error makes [validate_model] raise. *)
Lemma validate_model_invalid fs data values ok f :
  f ∈ fs -> field_value f data = Invalid ->
  raises (validate_model fs data values ok).
Proof.
  intros Hin Hf.
  destruct (validate_model fs data values ok) as [out|e] eqn:E; [|by exists e].
  apply validate_model_Ok in E as (_ & vs & HF & _).
  apply list_elem_of_lookup in Hin as [i Hi].
  destruct (Forall2_lookup_l _ _ _ _ _ HF Hi) as (v & _ & Hv).
  congruence.
Qed.

(** ** Identity objects: the extension attributes of a user *)

Lemma exattr_field_declared : exattr_field ∈ fields_of AADUser.
Proof. simpl. do 8 right. left. Qed.

(** X4: a user record whose [onPremisesExtensionAttributes] is missing, or
    is plain data other than a mapping ([None], a list, a string, a number,
    a boolean), cannot be constructed: the field's validator runs also on
    the default (an empty list) and calls [values()] on what it gets, and
    the [AttributeError] leaves the constructor. *)
Theorem user_without_extension_attributes_raises data :
  (forall v, dict_get "onPremisesExtensionAttributes" data = Some v ->
             (forall d, v <> VDict d) /\ (forall d, v <> VObj d)) ->
  construct AADUser data = Raise AttributeError.
Proof.
  intros Hno.
  assert (field_value exattr_field data = Abort AttributeError) as Hf.
  { unfold field_value, validate_field. simpl.
    destruct (dict_get "onPremisesExtensionAttributes" data) as [v|] eqn:Hv; [|done].
    destruct (Hno v eq_refl) as [Hnd _]. destruct v; try done. by destruct (Hnd d). }
  unfold construct. simpl. unfold AAD.init.
  change (fields_of AADUser) with
    ([req "id" TStr; req "displayName" TStr; req "accountEnabled" TBool;
      req_opt "creationType" TStr; req_opt "mail" TStr;
      req_opt "mailNickname" TStr; req_opt "onPremisesDistinguishedName" TStr;
      req_opt "onPremisesDomainName" TStr]
     ++ exattr_field
     :: [req_opt "onPremisesSamAccountName" TStr;
         req_opt "onPremisesSecurityIdentifier" TStr;
         req_opt "onPremisesUserPrincipalName" TStr;
         req "refreshTokensValidFromDateTime" TStr;
         req "userPrincipalName" TStr; req "userType" TStr]).
  rewrite (validate_model_abort _ _ _ _ _ _ AttributeError); [done| |done].
  repeat constructor; intros e'; by apply field_value_no_pre.
Qed.

Lemma user_without_extension_attributes_raises_witness :
  (forall v, dict_get "onPremisesExtensionAttributes" record_user = Some v ->
             (forall d, v <> VDict d) /\ (forall d, v <> VObj d)) /\
  construct AADUser record_user = Raise AttributeError.
Proof.
  assert (forall v, dict_get "onPremisesExtensionAttributes" record_user = Some v ->
                    (forall d, v <> VDict d) /\ (forall d, v <> VObj d))
    as H by (intros v [=]).
  split; [exact H|]. exact (user_without_extension_attributes_raises _ H).
Defined.

Lemma exattr_strings (items : list (string * option string)) :
  mapM str_validator
    (filter (fun v => truthy v = true)
       ((fun kv => from_option VStr VNone kv.2) <$> items))
  = Ok (filter (fun s => s <> "") (omap snd items)).
Proof.
  induction items as [|[k [s|]] items IH]; [done| |].
  - rewrite fmap_cons. cbn [snd from_option omap list_omap].
    destruct (decide (s = "")) as [->|Hs].
    + rewrite (filter_cons_False _ (VStr "")) by done.
      rewrite (filter_cons_False _ "") by (intros H; by apply H). exact IH.
    + rewrite (filter_cons_True _ (VStr s))
        by (simpl; by rewrite bool_decide_eq_false_2).
      rewrite (filter_cons_True _ s) by done.
      cbn [mapM]. rewrite IH. reflexivity.
  - rewrite fmap_cons. cbn [snd from_option omap list_omap].
    rewrite (filter_cons_False _ VNone) by done. exact IH.
Qed.

(** X5: extension attributes that arrive as a mapping from attribute names
    to strings or nulls are stored as the list of the non-empty strings, in
    the order of the mapping: null and empty slots are dropped, nothing is
    reordered or deduplicated. *)
Theorem extension_attributes_stored data (items : list (string * option string)) :
  dict_get "onPremisesExtensionAttributes" data
  = Some (VDict ((fun kv => (kv.1, from_option VStr VNone kv.2)) <$> items)) ->
  field_value exattr_field data
  = Valid (VList (VStr <$> filter (fun s => s <> "") (omap snd items))).
Proof.
  intros Hd. unfold field_value, validate_field. simpl. rewrite Hd. simpl.
  rewrite <- list_fmap_compose.
  change (snd ∘ _) with (fun kv : string * option string => from_option VStr VNone kv.2).
  by rewrite exattr_strings.
Qed.

Lemma extension_attributes_stored_witness :
  dict_get "onPremisesExtensionAttributes" record_extension_attributes
  = Some (VDict ((fun kv => (kv.1, from_option VStr VNone kv.2)) <$>
                   extension_attributes)) /\
  field_value exattr_field record_extension_attributes
  = Valid (VList [VStr "x"; VStr "y"]).
Proof.
  split; [reflexivity|].
  exact (extension_attributes_stored record_extension_attributes
           extension_attributes eq_refl).
Defined.

(** ** Identity objects: owners, members and construction *)

(** The [owners] and [members] a validated identity object iterates over:
    the validated lists of strings of the classes that declare the field,
    empty lists otherwise. *)
Lemma aad_lists c data values :
  family_of c = FAAD ->
  validate_model (fields_of c) data [] true = Ok values ->
  exists id owners members,
    dict_get "id" values = Some (VStr id) /\
    forall xdict rels,
      AAD.getattr_default (Instance c values xdict rels) "owners"
      = VList (VStr <$> owners) /\
      AAD.getattr_default (Instance c values xdict rels) "members"
      = VList (VStr <$> members).
Proof.
  intros Hc (_ & vs & Hvs & ->)%validate_model_Ok.
  destruct c; try discriminate; simpl in Hvs;
    repeat match goal with
    | H : Forall2 _ (_ :: _) _ |- _ =>
        apply Forall2_cons_inv_l in H as (? & ? & ? & H & ->)
    | H : Forall2 _ [] _ |- _ => apply Forall2_nil_inv_l in H as ->
    end;
    repeat match goal with
    | H : field_value (req "id" TStr) data = Valid ?v |- _ =>
        apply field_value_str in H as (? & ? & _ & _ & ->)
    | H : field_value (req _ TListStr) data = Valid ?v |- _ =>
        apply field_value_list_str in H as (? & ->)
    end.
  - eexists _, [], []. split; [reflexivity|]. by intros.
  - eexists _, _, []. split; [reflexivity|]. by intros.
  - eexists _, _, []. split; [reflexivity|]. by intros.
  - eexists _, _, _. split; [reflexivity|]. by intros.
  - eexists _, [], _. split; [reflexivity|]. by intros.
  - eexists _, [], []. split; [reflexivity|]. by intros.
Qed.

Lemma aad_labels c :
  family_of c = FAAD -> exists sl, _labels c = Some sl.
Proof. destruct c; try discriminate; by eexists. Qed.

Section AadEdges.
Context (self : instance) (id : string) (sl : list string).
Hypothesis Hid : attr self "id" = Ok (VStr id).
Hypothesis Hsl : _labels (cls self) = Some sl.

Lemma owner_edges_strings owners :
  AAD.getattr_default self "owners" = VList (VStr <$> owners) ->
  AAD.owner_edges self = Ok (owns_edge id sl <$> owners).
Proof.
  intros Ho. unfold AAD.owner_edges. rewrite Ho. simpl. clear Ho.
  induction owners as [|o owners IH]; [done|].
  rewrite !fmap_cons. cbn [mapM]. rewrite IH, Hid, Hsl. reflexivity.
Qed.

Lemma member_edges_strings members :
  AAD.getattr_default self "members" = VList (VStr <$> members) ->
  AAD.member_edges self = Ok (member_of_edge id sl <$> members).
Proof.
  intros Hm. unfold AAD.member_edges. rewrite Hm. simpl. clear Hm.
  induction members as [|m members IH]; [done|].
  rewrite !fmap_cons. cbn [mapM]. rewrite IH, Hid, Hsl. reflexivity.
Qed.
End AadEdges.

(** What the constructor of an identity class returns once the fields are
    validated. *)
Lemma aad_init_valid c data values :
  family_of c = FAAD ->
  validate_model (fields_of c) data [] true = Ok values ->
  exists id sl owners members,
    dict_get "id" values = Some (VStr id) /\
    _labels c = Some sl /\
    AAD.getattr_default (Instance c values [] []) "owners" = VList (VStr <$> owners) /\
    AAD.getattr_default (Instance c values [] []) "members" = VList (VStr <$> members) /\
    construct c data
    = Ok (Instance c values []
            ((owns_edge id sl <$> owners) ++ (member_of_edge id sl <$> members)
             ++ [EmptyList])).
Proof.
  intros Hc Hv.
  destruct (aad_lists _ _ _ Hc Hv) as (id & owners & members & Hid & Hlists).
  destruct (aad_labels _ Hc) as [sl Hsl].
  exists id, sl, owners, members.
  split; [done|]. split; [done|].
  split; [apply Hlists|]. split; [apply Hlists|].
  unfold construct. rewrite Hc. unfold AAD.init. rewrite Hv. simpl.
  assert (forall x rels, attr (Instance c values x rels) "id" = Ok (VStr id)) as Hattr.
  { intros. unfold attr. simpl. by rewrite Hid. }
  rewrite (owner_edges_strings _ id sl) with (owners := owners);
    [|apply Hattr|done|apply Hlists].
  simpl.
  rewrite (member_edges_strings _ id sl) with (members := members);
    [|apply Hattr|done|apply Hlists].
  simpl. rewrite default_hook by (simpl; by destruct c). reflexivity.
Qed.

Lemma edges_of_kind_app k (l l' : list item) :
  edges_of_kind k (l ++ l') = edges_of_kind k l ++ edges_of_kind k l'.
Proof. unfold edges_of_kind, edges. by rewrite omap_app, filter_app. Qed.

Lemma member_of_owns_edges id sl (l : list string) :
  edges_of_kind MemberOf (owns_edge id sl <$> l) = [].
Proof. induction l as [|o l IH]; [done|]. exact IH. Qed.

Lemma member_of_member_edges id sl (l : list string) :
  length (edges_of_kind MemberOf (member_of_edge id sl <$> l)) = length l.
Proof.
  induction l as [|o l IH]; [done|].
  rewrite fmap_cons. unfold edges_of_kind, edges in *.
  cbn [omap list_omap member_of_edge].
  rewrite filter_cons_True by done. simpl. by f_equal.
Qed.

(** X2: the relationship list of a constructed identity object is, in this
    order, one [Owns] edge per entry of its [owners] (from the object to the
    owner), one [MemberOf] edge per entry of its [members] (from the member
    to the object), and the element of the default hook; entries are taken
    in list order and a repeated id gives a repeated edge. *)
Theorem identity_relationships c data self :
  family_of c = FAAD ->
  construct c data = Ok self ->
  exists id sl owners members,
    attr self "id" = Ok (VStr id) /\
    _labels c = Some sl /\
    AAD.getattr_default self "owners" = VList (VStr <$> owners) /\
    AAD.getattr_default self "members" = VList (VStr <$> members) /\
    _relationships self
    = (owns_edge id sl <$> owners) ++ (member_of_edge id sl <$> members)
      ++ [EmptyList] /\
    length (edges_of_kind MemberOf (_relationships self)) = length members.
Proof.
  intros Hc H.
  assert (exists values, validate_model (fields_of c) data [] true = Ok values)
    as [values Hv].
  { unfold construct in H. rewrite Hc in H. unfold AAD.init in H.
    destruct (validate_model _ _ _ _); [eauto|discriminate]. }
  destruct (aad_init_valid _ _ _ Hc Hv)
    as (id & sl & owners & members & Hid & Hsl & Ho & Hm & Heq).
  rewrite Heq in H. injection H as <-.
  exists id, sl, owners, members.
  split; [unfold attr; simpl; by rewrite Hid|].
  split; [done|]. split; [exact Ho|]. split; [exact Hm|]. split; [done|].
  cbn [_relationships].
  rewrite !edges_of_kind_app, !length_app, member_of_owns_edges,
    member_of_member_edges.
  simpl. lia.
Qed.

Lemma identity_relationships_witness :
  family_of AADGroup = FAAD /\
  construct AADGroup record_group = Ok group_instance /\
  exists id sl owners members,
    attr group_instance "id" = Ok (VStr id) /\
    _labels AADGroup = Some sl /\
    AAD.getattr_default group_instance "owners" = VList (VStr <$> owners) /\
    AAD.getattr_default group_instance "members" = VList (VStr <$> members) /\
    _relationships group_instance
    = (owns_edge id sl <$> owners) ++ (member_of_edge id sl <$> members)
      ++ [EmptyList] /\
    length (edges_of_kind MemberOf (_relationships group_instance)) = length members.
Proof.
  split; [reflexivity|]. split; [reflexivity|].
  exact (identity_relationships AADGroup record_group group_instance eq_refl eq_refl).
Defined.

(** X3: for an identity class, field validation is the only way the
    constructor fails: when the record validates, the instance is
    constructed with the validated fields and no promoted fields; when it
    does not, the constructor raises what validation raised. *)
Theorem identity_construct_by_validation c data :
  family_of c = FAAD ->
  match validate_model (fields_of c) data [] true with
  | Ok values =>
      exists self, construct c data = Ok self /\ cls self = c /\
                   fields self = values /\ __xdict__ self = []
  | Raise e => construct c data = Raise e
  end.
Proof.
  intros Hc. destruct (validate_model _ _ _ _) as [values|e] eqn:Hv.
  - destruct (aad_init_valid _ _ _ Hc Hv) as (? & ? & ? & ? & _ & _ & _ & _ & ->).
    by eexists.
  - unfold construct. rewrite Hc. unfold AAD.init. by rewrite Hv.
Qed.

Lemma identity_construct_by_validation_witness :
  family_of AADGroup = FAAD /\
  (exists self, construct AADGroup record_group = Ok self) /\
  construct AADGroup [("id", VStr "g1")] = Raise ValidationError.
Proof.
  split; [reflexivity|]. split.
  - pose proof (identity_construct_by_validation AADGroup record_group eq_refl) as H.
    simpl in H. destruct H as (self & H & _). by exists self.
  - exact (identity_construct_by_validation AADGroup [("id", VStr "g1")] eq_refl).
Defined.

(** ** DynamicObject.from_dict *)

(** Induction on values, through the lists and mappings inside them. *)
Lemma value_nested_ind (P : value -> Prop)
    (HNone : P VNone) (HBool : forall b, P (VBool b)) (HInt : forall n, P (VInt n))
    (HFloat : forall r, P (VFloat r)) (HStr : forall s, P (VStr s))
    (HList : forall l, Forall P l -> P (VList l))
    (HDict : forall d, Forall (fun kv => P kv.2) d -> P (VDict d))
    (HObj : forall d, Forall (fun kv => P kv.2) d -> P (VObj d)) :
  forall v, P v.
Proof.
  exact (fix go (v : value) : P v :=
    let go_list :=
      fix go_list (l : list value) : Forall P l :=
        match l with
        | [] => @List.Forall_nil _ P
        | x :: l' => @List.Forall_cons _ P x l' (go x) (go_list l')
        end in
    let go_items :=
      fix go_items (d : list (string * value)) : Forall (fun kv => P kv.2) d :=
        match d with
        | [] => @List.Forall_nil _ (fun kv => P kv.2)
        | kv :: d' => @List.Forall_cons _ (fun kv => P kv.2) kv d' (go kv.2) (go_items d')
        end in
    match v with
    | VNone => HNone
    | VBool b => HBool b
    | VInt n => HInt n
    | VFloat r => HFloat r
    | VStr s => HStr s
    | VList l => HList l (go_list l)
    | VDict d => HDict d (go_items d)
    | VObj d => HObj d (go_items d)
    end).
Qed.

Lemma mapM_Ok_Forall {A B} (f : A -> result B) (l : list A) :
  Forall (fun x => exists y, f x = Ok y) l -> exists l', mapM f l = Ok l'.
Proof.
  induction 1 as [|x l [y Hy] _ [l' IH]]; [by exists []|].
  simpl. rewrite Hy, IH. simpl. eauto.
Qed.

Lemma mapM_Raise_Exists {A B} (f : A -> result B) (l : list A) e :
  mapM f l = Raise e -> Exists (fun x => f x = Raise e) l.
Proof.
  induction l as [|x l IH]; [discriminate|]. simpl.
  destruct (f x) as [y|e'] eqn:Hx; simpl.
  - destruct (mapM f l) as [ys|e'']; simpl; [discriminate|].
    intros [= ->]. right. by apply IH.
  - intros [= ->]. by left.
Qed.

Lemma mapM_raise_elem {A B} (f : A -> result B) (l : list A) (x : A) :
  x ∈ l -> raises (f x) -> raises (mapM f l).
Proof.
  induction l as [|y l IH]; [by inversion 1|].
  intros Hin Hx. simpl. apply bind_raises_r. intros b Hb.
  apply elem_of_cons in Hin as [->|Hin].
  - by apply raises_not_Ok with (a := b) in Hx.
  - by apply bind_raises_l, IH.
Qed.

(** The only exception of [from_dict] is the [TypeError] of [json.dumps]. *)
Lemma from_dict_raise v e : DynamicObject.from_dict v = Raise e -> e = TypeError.
Proof.
  revert e. induction v as [| | | | |l IH|d IH|d IH] using value_nested_ind;
    intros e; simpl; try discriminate.
  - destruct (mapM DynamicObject.from_dict l) as [l'|e'] eqn:Hm; simpl; [discriminate|].
    intros [= ->]. apply mapM_Raise_Exists in Hm.
    apply Exists_exists in Hm as (x & Hin & Hx).
    rewrite Forall_forall in IH. by apply (IH x Hin).
  - destruct (mapM _ d) as [d'|e'] eqn:Hm; simpl; [discriminate|].
    intros [= ->]. apply mapM_Raise_Exists in Hm.
    apply Exists_exists in Hm as ([k x] & Hin & Hx).
    rewrite Forall_forall in IH. specialize (IH _ Hin). simpl in *.
    destruct (DynamicObject.from_dict x) as [y|e'] eqn:Hy; simpl in Hx; [discriminate|].
    injection Hx as ->. by apply IH.
  - by intros [= <-].
Qed.

Lemma from_dict_dict_free v w :
  DynamicObject.from_dict v = Ok w -> dict_free w = true.
Proof.
  revert w. induction v as [| | | | |l IH|d IH|d IH] using value_nested_ind;
    intros w; simpl; try (by intros [= <-]); try discriminate.
  - intros H. inv_bind H. injection H as <-. simpl.
    apply mapM_Forall2 in Hstep.
    apply Is_true_true, forallb_True.
    induction Hstep as [|x y l l' Hxy _ IH']; [constructor|].
    apply Forall_cons in IH as [Hx Hl].
    constructor; [apply Is_true_true; by apply Hx|by apply IH'].
  - intros H. inv_bind H. injection H as <-. simpl.
    apply mapM_Forall2 in Hstep.
    apply Is_true_true, forallb_True.
    induction Hstep as [|[k x] y d d' Hxy _ IH']; [constructor|].
    apply Forall_cons in IH as [Hx Hl]. simpl in *.
    inv_bind Hxy. injection Hxy as <-.
    constructor; [apply Is_true_true; by apply Hx|by apply IH'].
Qed.

(** X11: [from_dict] converts exactly the JSON-compatible values: a value
    without a [DynamicObject] inside is converted, to a value in which no
    plain mapping is left, and any other value makes it raise [TypeError]. *)
Theorem from_dict_json (v : value) :
  if is_json v
  then exists w, DynamicObject.from_dict v = Ok w /\ dict_free w = true
  else DynamicObject.from_dict v = Raise TypeError.
Proof.
  induction v as [| | | | |l IH|d IH|d IH] using value_nested_ind;
    simpl; try (by eexists).
  - destruct (forallb is_json l) eqn:Hj.
    + apply Is_true_true, forallb_True in Hj.
      destruct (mapM_Ok_Forall DynamicObject.from_dict l) as [l' Hl'];
        [|eexists; split; [by rewrite Hl'|];
          apply (from_dict_dict_free (VList l)); simpl; by rewrite Hl'].
      rewrite Forall_forall in IH, Hj. apply Forall_forall. intros x Hin.
      specialize (IH x Hin). rewrite (Is_true_true_1 _ (Hj x Hin)) in IH.
      destruct IH as (w & -> & _). eauto.
    + destruct (mapM DynamicObject.from_dict l) as [l'|e] eqn:Hm; simpl.
      * exfalso. apply mapM_Forall2 in Hm.
        assert (forallb is_json l = true); [|congruence].
        apply Is_true_true_1, forallb_True, Forall_forall. intros x Hin.
        rewrite Forall_forall in IH. specialize (IH x Hin).
        apply list_elem_of_lookup in Hin as [i Hi].
        destruct (Forall2_lookup_l _ _ _ _ _ Hm Hi) as (y & _ & Hy).
        destruct (is_json x); [done|congruence].
      * f_equal. apply (from_dict_raise (VList l)). simpl. by rewrite Hm.
  - destruct (forallb _ d) eqn:Hj.
    + apply Is_true_true, forallb_True in Hj.
      destruct (mapM_Ok_Forall
                  (fun kv => let* v := DynamicObject.from_dict kv.2 in Ok (kv.1, v)) d)
        as [d' Hd'];
        [|eexists; split; [by rewrite Hd'|];
          apply (from_dict_dict_free (VDict d)); simpl; by rewrite Hd'].
      rewrite Forall_forall in IH, Hj. apply Forall_forall. intros [k x] Hin.
      specialize (IH _ Hin). specialize (Hj _ Hin). simpl in *.
      rewrite (Is_true_true_1 _ Hj) in IH. destruct IH as (w & -> & _). simpl. eauto.
    + destruct (mapM _ d) as [d'|e] eqn:Hm; simpl.
      * exfalso. apply mapM_Forall2 in Hm.
        assert (forallb (fun kv => is_json kv.2) d = true); [|congruence].
        apply Is_true_true_1, forallb_True, Forall_forall. intros [k x] Hin.
        rewrite Forall_forall in IH. specialize (IH _ Hin). simpl in *.
        apply list_elem_of_lookup in Hin as [i Hi].
        destruct (Forall2_lookup_l _ _ _ _ _ Hm Hi) as (y & _ & Hy). simpl in Hy.
        destruct (is_json x); [done|]. rewrite IH in Hy. discriminate.
      * f_equal. apply (from_dict_raise (VDict d)). simpl. by rewrite Hm.
Qed.

Lemma from_dict_keys_Forall2 (d d' : dict) :
  Forall2 (fun kv kv' => kv'.1 = kv.1 /\
                         DynamicObject.from_dict kv.2 = Ok kv'.2) d d' ->
  forall k, dict_get k d = None -> dict_get k d' = None.
Proof.
  induction 1 as [|[k1 v1] [k2 v2] d d' [Hk _] _ IH]; [done|].
  intros k. simpl in *. subst k2. destruct (decide (k = k1)); [done|apply IH].
Qed.

Lemma from_dict_resolve names : forall v w,
  DynamicObject.from_dict v = Ok w ->
  match json_lookup names v with
  | Some x => exists y, DynamicObject.from_dict x = Ok y /\ resolve names w = Some y
  | None => resolve names w = None
  end.
Proof.
  induction names as [|n names IH]; intros v w Hv; [simpl; eauto|].
  destruct v; try (simpl in Hv |- *; injection Hv as <-; done).
  - simpl in Hv |- *. inv_bind Hv. by injection Hv as <-.
  - assert (exists d', w = VObj d') as [d' ->].
    { simpl in Hv. inv_bind Hv. injection Hv as <-. eauto. }
    apply from_dict_Obj in Hv as (d0 & [= <-] & _ & HF').
    simpl. destruct (dict_get n d) as [x|] eqn:Hx; simpl.
    + destruct (from_dict_lookup _ _ _ _ HF' Hx) as (x' & -> & Hx'). simpl.
      by apply IH.
    + by rewrite (from_dict_keys_Forall2 _ _ HF' n Hx).
  - discriminate.
Qed.

(** X12: converting a raw record keeps every dotted path of plain names
    (none beginning with an underscore, where the names of Python's own
    attributes live): when the keys of the path lead to an entry in the raw
    mappings, reading the path off the [DynamicObject] succeeds and gives
    that entry, converted. *)
Theorem from_dict_keeps_paths (v w x : value) (path : string) :
  DynamicObject.from_dict v = Ok w ->
  Forall (fun n => String.prefix "_" n = false) (Str.split_go "." path 0) ->
  json_lookup (Str.split_go "." path 0) v = Some x ->
  exists y, DynamicObject.from_dict x = Ok y /\ attrgetter path w = Ok y.
Proof.
  intros Hv _ Hx. unfold attrgetter. simpl. rewrite getattr_fold_resolve.
  pose proof (from_dict_resolve (Str.split_go "." path 0) v w Hv) as H.
  rewrite Hx in H. destruct H as (y & Hy & ->). by exists y.
Qed.

Lemma from_dict_keeps_paths_witness :
  DynamicObject.from_dict
    (VDict [("sku", VDict [("name", VStr "standard")]); ("n", VInt 3)])
  = Ok (VObj [("sku", VObj [("name", VStr "standard")]); ("n", VInt 3)]) /\
  exists y,
    DynamicObject.from_dict (VStr "standard") = Ok y /\
    attrgetter "sku.name"
      (VObj [("sku", VObj [("name", VStr "standard")]); ("n", VInt 3)])
    = Ok y.
Proof.
  split; [reflexivity|].
  apply (from_dict_keeps_paths
           (VDict [("sku", VDict [("name", VStr "standard")]); ("n", VInt 3)])
           _ (VStr "standard") "sku.name" eq_refl);
    [repeat constructor|reflexivity].
Defined.

(** ** Resources: construction step by step *)

(** The validated fields of a resource, with what [properties] and [tags]
    came from. *)
Lemma arm_values_full c data values :
  family_of c = FARM ->
  validate_model (fields_of c) data [] true = Ok values ->
  exists id location name properties tags rest,
    values = ("id", VStr id) :: ("location", location) :: ("name", name)
             :: ("properties", properties) :: ("tags", tags) :: rest /\
    field_value (req "id" TStr) data = Valid (VStr id) /\
    field_value properties_field data = Valid properties /\
    field_value tags_field data = Valid tags /\
    (properties = VNone \/ exists d, properties = VObj d).
Proof.
  intros [extra Hfs]%fields_of_arm (_ & vs & Hvs & ->)%validate_model_Ok.
  rewrite Hfs in *. simpl in Hvs.
  repeat match goal with
  | H : Forall2 _ (_ :: _) _ |- _ =>
      apply Forall2_cons_inv_l in H as (? & ? & ? & H & ->)
  end.
  match goal with
  | H : field_value (req "id" TStr) data = Valid ?v |- _ =>
      destruct (field_value_str _ _ _ H) as (? & id & _ & _ & ->)
  end.
  match goal with
  | H : field_value properties_field data = Valid ?v |- _ =>
      destruct (field_value_properties _ _ H) as [_ Hshape]
  end.
  simpl. by repeat eexists.
Qed.

(** The constructor of a resource class after validation: the extraction
    block is skipped, then come the default edge and the hook. *)
Lemma arm_init_steps c data values :
  family_of c = FARM ->
  validate_model (fields_of c) data [] true = Ok values ->
  exists id properties,
    dict_get "id" values = Some (VStr id) /\
    dict_get "properties" values = Some properties /\
    (properties = VNone \/ exists d, properties = VObj d) /\
    construct c data
    = (let* contains := ARM.resourcegroup_edge (Instance c values [] []) in
       let* extra := __relationships__ (Instance c values [] contains) in
       Ok (Instance c values [] (contains ++ extra))).
Proof.
  intros Hc Hv.
  destruct (arm_values_full _ _ _ Hc Hv)
    as (id & loc & name & properties & tags & rest & -> & _ & _ & _ & Hshape).
  exists id, properties. split; [done|]. split; [done|]. split; [done|].
  unfold construct. rewrite Hc. unfold ARM.init. rewrite Hv.
  cbn [bind]. unfold attr. cbn [fields dict_get]. rewrite decide_False by done.
  rewrite decide_False by done. rewrite decide_False by done.
  rewrite decide_True by done. cbn [bind]. by rewrite extract_self.
Qed.

Lemma construct_validation_raise c data e :
  validate_model (fields_of c) data [] true = Raise e ->
  construct c data = Raise e.
Proof.
  intros Hv. unfold construct, NodeBase.init, AAD.init, ARM.init.
  destruct (family_of c); by rewrite Hv.
Qed.

(** X6: a resource class that does not map to a resource group (tenant,
    subscription, resource group) is constructed whenever its fields
    validate, whatever the form of its id: no edge is built, the
    relationship list is the one element of the default hook and nothing is
    promoted; when validation fails the constructor raises what validation
    raised. *)
Theorem unmapped_resource_construct c data :
  family_of c = FARM ->
  __map_to_resourcegroup__ c = false ->
  construct c data
  = (let* values := validate_model (fields_of c) data [] true in
     Ok (Instance c values [] [EmptyList])).
Proof.
  intros Hc Hmap.
  destruct (validate_model (fields_of c) data [] true) as [values|e] eqn:Hv.
  - destruct (arm_init_steps _ _ _ Hc Hv) as (id & props & Hid & _ & _ & ->).
    simpl.
    unfold ARM.resourcegroup_edge. simpl. rewrite Hmap. simpl.
    by rewrite default_hook by (simpl; by destruct c).
  - simpl. by apply construct_validation_raise.
Qed.

Lemma unmapped_resource_construct_witness :
  family_of Subscription = FARM /\
  __map_to_resourcegroup__ Subscription = false /\
  exists self,
    construct Subscription record_subscription = Ok self /\
    _relationships self = [EmptyList] /\
    attr self "managed_by_tenants" = Ok (VList []).
Proof.
  split; [reflexivity|]. split; [reflexivity|].
  rewrite (unmapped_resource_construct Subscription record_subscription
             eq_refl eq_refl).
  eexists. split; [reflexivity|]. by split.
Defined.

(** X7: a resource class that maps to its resource group and keeps the
    default hook (the base class and the storage account) is constructed
    exactly when its fields validate and the validated id contains the word
    [providers]: then the relationship list is the one [Contains] edge, from
    the part of the id before the first [/providers] to the id, followed by
    the element of the default hook; with fields that validate and an id
    without the word, the constructor raises [ValidationError]. *)
Theorem mapped_resource_construct c data values :
  family_of c = FARM ->
  __map_to_resourcegroup__ c = true ->
  c <> KeyVault ->
  validate_model (fields_of c) data [] true = Ok values ->
  exists id tl,
    dict_get "id" values = Some (VStr id) /\
    _labels c = Some tl /\
    if Str.contains "providers" id
    then exists rg xdict,
        Str.split_go "/providers" id 0 !! 0 = Some rg /\
        construct c data
        = Ok (Instance c values xdict [contains_edge rg id tl; EmptyList])
    else construct c data = Raise ValidationError.
Proof.
  intros Hc Hmap Hkv Hv.
  destruct (arm_init_steps _ _ _ Hc Hv) as (id & props & Hid & _ & _ & Heq).
  assert (exists tl, _labels c = Some tl) as [tl Htl]
    by (destruct c; try discriminate; by eexists).
  exists id, tl. split; [done|]. split; [done|].
  rewrite Heq.
  assert (forall x rels, attr (Instance c values x rels) "id" = Ok (VStr id)) as Hattr.
  { intros. unfold attr. simpl. by rewrite Hid. }
  destruct (Str.contains "providers" id) eqn:Hp.
  - pose proof (split_go_nonempty "/providers" id 0) as Hne.
    destruct (Str.split_go "/providers" id 0) as [|rg pieces] eqn:Hs; [done|].
    exists rg, []. split; [done|].
    unfold ARM.resourcegroup_edge. cbn [cls]. rewrite Hmap.
    rewrite (resourcegroup_unfold _ id) by done. rewrite Hp, Hs. simpl.
    rewrite Hattr. simpl. rewrite Htl. unfold Relationship.init. simpl.
    by rewrite default_hook by done.
  - rewrite (resourcegroup_edge_raises _ id) by done. reflexivity.
Qed.

Lemma mapped_resource_construct_witness :
  family_of StorageAccount = FARM /\
  __map_to_resourcegroup__ StorageAccount = true /\
  StorageAccount <> KeyVault /\
  validate_model (fields_of StorageAccount) record_storage [] true
  = Ok (fields storage_instance) /\
  exists id tl,
    dict_get "id" (fields storage_instance) = Some (VStr id) /\
    _labels StorageAccount = Some tl /\
    if Str.contains "providers" id
    then exists rg xdict,
        Str.split_go "/providers" id 0 !! 0 = Some rg /\
        construct StorageAccount record_storage
        = Ok (Instance StorageAccount (fields storage_instance) xdict
                [contains_edge rg id tl; EmptyList])
    else construct StorageAccount record_storage = Raise ValidationError.
Proof.
  assert (StorageAccount <> KeyVault) as Hne by discriminate.
  split; [reflexivity|]. split; [reflexivity|]. split; [exact Hne|].
  split; [reflexivity|].
  exact (mapped_resource_construct StorageAccount record_storage _
           eq_refl eq_refl Hne eq_refl).
Defined.

(** ** Resources: malformed [tags] and [properties] *)

Lemma properties_field_no_abort data e :
  field_value properties_field data <> Abort e.
Proof.
  unfold field_value, validate_field. simpl. unfold props_to_obj.
  destruct (dict_get "properties" data) as [v|]; simpl; [|done].
  destruct (DynamicObject.from_dict v) as [w|e'] eqn:Hw.
  - by destruct w.
  - apply from_dict_raise in Hw as ->. done.
Qed.

Lemma fields_of_arm_tags c :
  family_of c = FARM ->
  exists extra,
    fields_of c
    = [req "id" TStr; opt "location" TStr; opt "name" TStr; properties_field]
      ++ tags_field :: extra.
Proof. intros [extra ->]%fields_of_arm. by exists extra. Qed.

(** X8: [tags] given as true-ish plain data that is not a mapping (a
    non-empty list or string, a non-zero number, [True]) makes the
    constructor of every resource class raise [AttributeError], whatever
    the other fields are: the validator calls [items()] on it. *)
Theorem tags_not_a_mapping_raises c data v :
  family_of c = FARM ->
  dict_get "tags" data = Some v ->
  truthy v = true ->
  (forall d, v <> VDict d) ->
  (forall d, v <> VObj d) ->
  construct c data = Raise AttributeError.
Proof.
  intros Hc Hv Ht Hnd _.
  apply construct_validation_raise.
  destruct (fields_of_arm_tags _ Hc) as [extra ->].
  apply validate_model_abort.
  - repeat constructor; intros e'; first
      [ by apply field_value_no_pre | apply properties_field_no_abort ].
  - unfold field_value, validate_field. simpl. rewrite Hv.
    unfold convert_to_list. rewrite Ht.
    destruct v; try done. by destruct (Hnd d).
Qed.

Lemma tags_not_a_mapping_raises_witness :
  family_of StorageAccount = FARM /\
  dict_get "tags" [("id", VStr storage_id); ("tags", VList [VStr "a"; VStr "1"])]
  = Some (VList [VStr "a"; VStr "1"]) /\
  truthy (VList [VStr "a"; VStr "1"]) = true /\
  construct StorageAccount
    [("id", VStr storage_id); ("tags", VList [VStr "a"; VStr "1"])]
  = Raise AttributeError.
Proof.
  split; [reflexivity|]. split; [reflexivity|]. split; [reflexivity|].
  apply (tags_not_a_mapping_raises StorageAccount _ (VList [VStr "a"; VStr "1"]));
    [reflexivity..|discriminate|discriminate].
Defined.

(** X10: [properties] given as anything but a mapping or [None] (a list, a
    string, a number) makes the constructor of every resource class raise:
    the value is not turned into a [DynamicObject] and the field does not
    validate. *)
Theorem properties_not_a_mapping_raises c data v :
  family_of c = FARM ->
  dict_get "properties" data = Some v ->
  v <> VNone ->
  (forall d, v <> VDict d) ->
  raises (construct c data).
Proof.
  intros Hc Hv Hnn Hnd.
  assert (field_value properties_field data = Invalid) as Hf.
  { unfold field_value, validate_field. simpl. rewrite Hv. unfold props_to_obj.
    destruct (DynamicObject.from_dict v) as [w|e] eqn:Hw.
    - destruct v; simpl in Hw; try (injection Hw as <-; done).
      + inv_bind Hw. by injection Hw as <-.
      + by destruct (Hnd d).
      + discriminate.
    - by apply from_dict_raise in Hw as ->. }
  assert (raises (validate_model (fields_of c) data [] true)) as [e He].
  { apply validate_model_invalid with (f := properties_field); [|done].
    destruct (fields_of_arm _ Hc) as [extra ->]. simpl. do 3 right. left. }
  exists e. by apply construct_validation_raise.
Qed.

Lemma properties_not_a_mapping_raises_witness :
  family_of StorageAccount = FARM /\
  dict_get "properties" [("id", VStr storage_id); ("properties", VList [])]
  = Some (VList []) /\
  raises (construct StorageAccount
            [("id", VStr storage_id); ("properties", VList [])]).
Proof.
  split; [reflexivity|]. split; [reflexivity|].
  apply (properties_not_a_mapping_raises StorageAccount _ (VList []));
    [reflexivity..|discriminate|discriminate].
Defined.

(** ** The node exports *)

Lemma dict_get_exclude {A} (ks : list string) (d : list (string * A)) k :
  dict_get k (dict_exclude ks d)
  = if decide (k ∈ ks) then None else dict_get k d.
Proof.
  unfold dict_exclude. induction d as [|[k' v'] d IH].
  - by destruct (decide (k ∈ ks)).
  - destruct (decide (k' ∈ ks)) as [Hin|Hin].
    + rewrite filter_cons_False by (simpl; by intros ?). rewrite IH.
      simpl. destruct (decide (k ∈ ks)); [done|].
      rewrite decide_False; [done|]. by intros ->.
    + rewrite filter_cons_True by done. simpl. rewrite IH.
      destruct (decide (k = k')) as [->|]; [by rewrite decide_False|done].
Qed.

Lemma model_dict_get self exclude k :
  dict_get k (model_dict self exclude)
  = if decide (k ∈ exclude) then None else Plain <$> dict_get k (fields self).
Proof.
  unfold model_dict. rewrite dict_get_fmap, dict_get_exclude.
  by destruct (decide (k ∈ exclude)).
Qed.

(** X14: the export of an identity object maps ["_relationships"] to its
    relationship list (also when a field has that name), has no entry for
    [owners] and [members], and has every other field as it was
    validated. *)
Theorem identity_export_lookup (self : instance) (k : string) :
  dict_get k (AAD.node self)
  = if decide (k = "_relationships") then Some (Relationships (_relationships self))
    else if decide (k ∈ ["owners"; "members"]) then None
    else Plain <$> dict_get k (fields self).
Proof.
  unfold AAD.node. rewrite dict_get_merge by apply NoDup_singleton.
  cbn [dict_get]. destruct (decide (k = "_relationships")); [done|].
  apply model_dict_get.
Qed.

(** X13: in the export of a constructed resource, ["_relationships"] is the
    relationship list, the raw [properties] are left out, and under every
    other name that can be a field's (one that does not begin with two
    underscores, where pydantic keeps private attributes) the export has
    the validated field of that name and nothing else: no promoted field
    takes the place of a field or adds a key. *)
Theorem resource_export_lookup c data self (k : string) :
  family_of c = FARM ->
  construct c data = Ok self ->
  String.prefix "__" k = false ->
  dict_get k (ARM.node self)
  = if decide (k = "_relationships") then Some (Relationships (_relationships self))
    else if decide (k = "properties") then None
    else Plain <$> dict_get k (fields self).
Proof.
  intros Hc H _. unfold construct in H. rewrite Hc in H.
  apply arm_init_Ok in H
    as (rid & values & props & xdict & contains & extra & _ & _ & _ & _ & _
        & -> & _ & _ & ->); [|done].
  unfold ARM.node. cbn [__xdict__ _relationships fields].
  rewrite dict_get_merge by apply NoDup_singleton.
  cbn [dict_get]. destruct (decide (k = "_relationships")); [done|].
  rewrite dict_get_merge by constructor.
  cbn [fmap list_fmap dict_get].
  rewrite model_dict_get. cbn [fields].
  destruct (decide (k = "properties")) as [->|Hk].
  - rewrite decide_True; [done|]. apply list_elem_of_singleton. done.
  - rewrite decide_False; [done|]. by intros ?%list_elem_of_singleton.
Qed.

Lemma resource_export_lookup_witness :
  family_of StorageAccount = FARM /\
  construct StorageAccount record_storage = Ok storage_instance /\
  dict_get "properties" (ARM.node storage_instance) = None /\
  dict_get "accessTier" (ARM.node storage_instance) = None /\
  dict_get "_relationships" (ARM.node storage_instance)
  = Some (Relationships (_relationships storage_instance)) /\
  dict_get "id" (ARM.node storage_instance) = Some (Plain (VStr storage_id)).
Proof.
  split; [reflexivity|]. split; [reflexivity|].
  pose proof (resource_export_lookup StorageAccount record_storage storage_instance)
    as H.
  split; [|split; [|split]].
  - by rewrite (H "properties" eq_refl eq_refl eq_refl).
  - by rewrite (H "accessTier" eq_refl eq_refl eq_refl).
  - by rewrite (H "_relationships" eq_refl eq_refl eq_refl).
  - by rewrite (H "id" eq_refl eq_refl eq_refl).
Defined.

Lemma arm_node_get (self : instance) k :
  NoDup (__xdict__ self).*1 ->
  k <> "_relationships" ->
  dict_get k (__xdict__ self) = None ->
  k <> "properties" ->
  dict_get k (ARM.node self) = Plain <$> dict_get k (fields self).
Proof.
  intros Hnd Hk Hx Hp. unfold ARM.node.
  rewrite dict_get_merge by apply NoDup_singleton.
  cbn [dict_get]. rewrite decide_False by done.
  rewrite dict_get_merge.
  2:{ rewrite <- list_fmap_compose.
      by replace (fst ∘ prod_map id Plain) with (@fst string value) by done. }
  rewrite dict_get_fmap, Hx. simpl. rewrite model_dict_get.
  rewrite decide_False; [done|]. by intros ?%list_elem_of_singleton.
Qed.

Lemma tags_field_strings data (items : list (string * string)) :
  dict_get "tags" data = Some (VDict (prod_map id VStr <$> items)) ->
  field_value tags_field data
  = Valid (if decide (items = []) then VNone
           else VList (VStr <$> flat_map (fun kv => [kv.1; kv.2]) items)).
Proof.
  intros Ht. unfold field_value. cbn [fname tags_field]. rewrite Ht.
  destruct items as [|kv items]; [done|].
  rewrite decide_False by done.
  unfold validate_field. cbn [pre tags_field].
  rewrite convert_to_list_items by done.
  rewrite flatten_items_strings. simpl.
  by rewrite mapM_str_validator.
Qed.

(** X9: tags that arrive as a mapping from strings to strings are stored in
    the constructed resource as the flat sequence of their keys and values,
    and exported under [tags] as that sequence; an empty mapping is stored
    and exported as [None]. *)
Theorem tags_stored_and_exported c data self (items : list (string * string)) :
  family_of c = FARM ->
  construct c data = Ok self ->
  dict_get "tags" data = Some (VDict (prod_map id VStr <$> items)) ->
  let stored :=
    if decide (items = []) then VNone
    else VList (VStr <$> flat_map (fun kv => [kv.1; kv.2]) items) in
  attr self "tags" = Ok stored /\
  dict_get "tags" (ARM.node self) = Some (Plain stored).
Proof.
  intros Hc H Ht stored. unfold construct in H. rewrite Hc in H.
  apply arm_init_Ok in H
    as (rid & values & props & xdict & contains & extra & Hv & _ & _ & _ & _
        & -> & _ & _ & ->); [|done].
  destruct (arm_values_full _ _ _ Hc Hv)
    as (id' & loc & name & props' & tags & rest & -> & _ & _ & Htags & _).
  assert (tags = stored) as ->.
  { rewrite (tags_field_strings _ _ Ht) in Htags. by injection Htags as <-. }
  split; [done|].
  rewrite arm_node_get; [done|constructor|done|done|done].
Qed.

Lemma tags_stored_and_exported_witness :
  family_of StorageAccount = FARM /\
  construct StorageAccount record_storage = Ok storage_instance /\
  dict_get "tags" record_storage
  = Some (VDict (prod_map id VStr <$> [("a", "1"); ("b", "2")])) /\
  attr storage_instance "tags" = Ok (VList [VStr "a"; VStr "1"; VStr "b"; VStr "2"]) /\
  dict_get "tags" (ARM.node storage_instance)
  = Some (Plain (VList [VStr "a"; VStr "1"; VStr "b"; VStr "2"])).
Proof.
  split; [reflexivity|]. split; [reflexivity|]. split; [reflexivity|].
  exact (tags_stored_and_exported StorageAccount record_storage storage_instance
           [("a", "1"); ("b", "2")] eq_refl eq_refl eq_refl).
Defined.

(** ** The id accessors: what they return *)

Lemma prefix_append_mono (p a b : string) :
  String.prefix p a = true -> String.prefix p (a +:+ b) = true.
Proof.
  revert a. induction p as [|c p IH]; intros a; [by destruct (a +:+ b)|].
  destruct a as [|x a]; [discriminate|]. rewrite append_cons. simpl.
  destruct (ascii_dec c x); [apply IH|discriminate].
Qed.

(** The first piece of a split is the text before the first occurrence of
    the separator. *)
Lemma split_go_first (sep s : string) :
  sep <> "" ->
  exists first pieces rest,
    Str.split_go sep s 0 = first :: pieces /\
    s = first +:+ rest /\
    Str.contains sep first = false /\
    (pieces = [] -> rest = "") /\
    (pieces <> [] -> String.prefix sep rest = true).
Proof.
  intros Hsep. induction s as [|c s IH].
  - exists "", [], "". destruct sep; [done|]. by repeat split.
  - destruct IH as (first & pieces & rest & Hs & -> & Hc & Hnil & Hcons).
    cbn [Str.split_go].
    destruct (String.prefix sep (String c (first +:+ rest))) eqn:Hp.
    + exists "", (Str.split_go sep (first +:+ rest) (String.length sep - 1)),
        (String c (first +:+ rest)).
      split; [done|]. split; [done|].
      split; [by destruct sep|]. split; [|done].
      intros E. by destruct (split_go_nonempty _ _ _ E).
    + rewrite Hs. exists (String c first), pieces, rest.
      split; [done|]. split; [done|]. split; [|done].
      cbn [Str.contains]. rewrite Hc, orb_false_r.
      destruct (String.prefix sep (String c first)) eqn:Hp'; [|done].
      apply (prefix_append_mono _ _ rest) in Hp'. rewrite append_cons in Hp'.
      congruence.
Qed.

(** X15: [resourcegroup] never raises; it is [None] exactly when the word
    [providers] does not occur in the id, and otherwise a string that the id
    starts with, free of [/providers]: the id up to its first [/providers],
    or the whole id when it has none. *)
Theorem resourcegroup_is_prefix (self : instance) (id : string) :
  attr self "id" = Ok (VStr id) ->
  exists v,
    ARM.resourcegroup self = Ok v /\
    (v = VNone <-> Str.contains "providers" id = false) /\
    forall rg, v = VStr rg ->
      Str.contains "/providers" rg = false /\
      exists rest, id = rg +:+ rest /\
                   (rest = "" \/ String.prefix "/providers" rest = true).
Proof.
  intros Hid. rewrite (resourcegroup_unfold _ id) by done.
  destruct (Str.contains "providers" id) eqn:Hp.
  - destruct (split_go_first "/providers" id)
      as (first & pieces & rest & Hs & Heq & Hc & Hnil & Hcons); [done|].
    rewrite Hs. simpl. eexists. split; [reflexivity|]. split; [done|].
    intros rg [= <-]. split; [done|]. exists rest. split; [done|].
    destruct pieces; [left; by apply Hnil|right; by apply Hcons].
  - exists VNone. by repeat split.
Qed.

Lemma resourcegroup_is_prefix_witness :
  attr storage_instance "id" = Ok (VStr storage_id) /\
  ARM.resourcegroup storage_instance = Ok (VStr "/subscriptions/S/resourceGroups/G") /\
  exists v, ARM.resourcegroup storage_instance = Ok v /\
            (v = VNone <-> Str.contains "providers" storage_id = false).
Proof.
  split; [reflexivity|]. split; [reflexivity|].
  destruct (resourcegroup_is_prefix storage_instance storage_id eq_refl)
    as (v & Hv & Hnone & _).
  by exists v.
Defined.

Lemma prefix_char c x (s : string) :
  String.prefix (String c "") (String x s) = bool_decide (c = x).
Proof.
  simpl. destruct (ascii_dec c x) as [->|Hne].
  - rewrite bool_decide_eq_true_2 by done. by destruct s.
  - by rewrite bool_decide_eq_false_2.
Qed.

(** Splitting at a character: the pieces are free of it and, joined with
    it, give the string back. *)
Lemma split_char_join c (s : string) :
  join (String c "") (Str.split_go (String c "") s 0) = s /\
  Forall (fun p => has_char c p = false) (Str.split_go (String c "") s 0).
Proof.
  induction s as [|x s [IHj IHf]]; [by repeat constructor|].
  cbn [Str.split_go]. rewrite prefix_char.
  pose proof (split_go_nonempty (String c "") s 0) as Hne.
  destruct (decide (c = x)) as [->|Hcx].
  - rewrite bool_decide_eq_true_2 by done. simpl String.length. simpl Nat.sub.
    destruct (Str.split_go (String x "") s 0) as [|p ps] eqn:Hs; [done|].
    split; [|by constructor].
    change (join (String x "") ("" :: p :: ps))
      with (String x (join (String x "") (p :: ps))).
    by rewrite IHj.
  - rewrite bool_decide_eq_false_2 by done.
    destruct (Str.split_go (String c "") s 0) as [|p ps] eqn:Hs; [done|].
    apply Forall_cons in IHf as [Hp Hps]. simpl Str.cons_head. split.
    + destruct ps as [|q ps].
      * simpl in *. by rewrite IHj.
      * change (String x (join (String c "") (p :: q :: ps)) = String x s).
        by rewrite IHj.
    + constructor; [|done]. simpl. rewrite Hp.
      by rewrite bool_decide_eq_false_2 by (by intros ->).
Qed.

(** X16: [subscription] is [None] when the word [subscriptions] does not
    occur in the id; otherwise it is the third of the pieces that the id
    falls into at its slashes (a string without a slash), and it raises
    [IndexError] when the id has fewer than three such pieces. *)
Theorem subscription_third_piece (self : instance) (id : string) :
  attr self "id" = Ok (VStr id) ->
  exists pieces,
    join "/" pieces = id /\
    Forall (fun p => has_char "/" p = false) pieces /\
    ARM.subscription self
    = if Str.contains "subscriptions" id
      then match pieces !! 2 with
           | Some s => Ok (VStr s)
           | None => Raise IndexError
           end
      else Ok VNone.
Proof.
  intros Hid. exists (Str.split_go "/" id 0).
  destruct (split_char_join "/" id) as [Hj Hf].
  split; [done|]. split; [done|].
  rewrite (subscription_unfold _ id) by done.
  destruct (Str.contains "subscriptions" id); [|done].
  unfold index. by destruct (_ !! 2).
Qed.

Lemma subscription_third_piece_witness :
  attr storage_instance "id" = Ok (VStr storage_id) /\
  ARM.subscription storage_instance = Ok (VStr "S") /\
  exists pieces, join "/" pieces = storage_id /\ pieces !! 2 = Some "S".
Proof.
  split; [reflexivity|]. split; [reflexivity|].
  destruct (subscription_third_piece storage_instance storage_id eq_refl)
    as (pieces & Hj & _ & Hs).
  exists (Str.split_go "/" storage_id 0). by split.
Defined.

(** ** Relationship properties *)

(** X19: the [properties] argument never makes the construction of a
    [Relationship] fail: a constructor call that succeeds succeeds with any
    other [properties], with the same ids; a [dict] is carried as it is, a
    [DynamicObject] as its [__dict__] (the objects nested in it stay), and
    anything else is dropped. *)
Theorem relationship_properties_never_fail src sl tgt tl rel props r :
  Relationship.init src sl tgt tl rel props = Ok r ->
  (forall props', exists r',
      Relationship.init src sl tgt tl rel props' = Ok r' /\
      Relationship.source r' = Relationship.source r /\
      Relationship.target r' = Relationship.target r /\
      Relationship.relation r' = rel) /\
  Relationship.properties r
  = match props with
    | VDict d | VObj d => Some d
    | _ => None
    end.
Proof.
  intros (s & g & sl' & tl' & Hs & Hg & -> & -> & ->)%Relationship_init_Ok.
  split.
  - intros props'. unfold Relationship.init. rewrite Hs, Hg.
    destruct props'; simpl; by eexists.
  - by destruct props.
Qed.

Lemma relationship_properties_never_fail_witness :
  Relationship.init (VStr "p1") (Some ["AADOBJECT"]) (VStr vault_id)
    (Some ["KEYVAULT"; "ARMRESOURCE"]) HasAccessPolicies
    (VObj [("keys", VList [VStr "get"]); ("nested", VObj [("a", VInt 1)])])
  = Ok (Relationship.mk "p1" ["AADOBJECT"] vault_id ["KEYVAULT"; "ARMRESOURCE"]
          HasAccessPolicies
          (Some [("keys", VList [VStr "get"]); ("nested", VObj [("a", VInt 1)])])) /\
  exists r', Relationship.init (VStr "p1") (Some ["AADOBJECT"]) (VStr vault_id)
               (Some ["KEYVAULT"; "ARMRESOURCE"]) HasAccessPolicies (VStr "all")
             = Ok r' /\ Relationship.properties r' = None.
Proof.
  split; [reflexivity|].
  destruct (relationship_properties_never_fail _ _ _ _ _ _ _
              (eq_refl : Relationship.init (VStr "p1") (Some ["AADOBJECT"])
                           (VStr vault_id) (Some ["KEYVAULT"; "ARMRESOURCE"])
                           HasAccessPolicies VNone = Ok _)) as [H _].
  destruct (H (VStr "all")) as (r' & Hr' & _).
  exists r'. split; [exact Hr'|].
  injection Hr' as <-. reflexivity.
Defined.

(** ** Key vaults: malformed access policies *)

Lemma from_dict_list_Forall2 l l' :
  DynamicObject.from_dict (VList l) = Ok (VList l') ->
  Forall2 (fun x y => DynamicObject.from_dict x = Ok y) l l'.
Proof.
  simpl. intros H. inv_bind H. injection H as <-. by apply mapM_Forall2.
Qed.

(** X22: a key vault cannot be constructed from a record one of whose
    access policies is not a mapping, or is a mapping without [objectId] or
    without [permissions]: the constructor raises. *)
Theorem keyvault_malformed_policy_raises data d raw policy :
  dict_get "properties" data = Some (VDict d) ->
  dict_get "accessPolicies" d = Some (VList raw) ->
  policy ∈ raw ->
  (forall kvs, policy = VDict kvs ->
               dict_get "objectId" kvs = None \/ dict_get "permissions" kvs = None) ->
  raises (construct KeyVault data).
Proof.
  intros Hdata Hraw Hin Hbad.
  destruct (construct KeyVault data) as [self|e] eqn:H; [|by exists e].
  exfalso.
  apply keyvault_init_Ok in H
    as (id & props & ap & policies & contains & hook & Hid & _ & Hfv & Hap & Hiter
        & _ & _ & HF).
  apply field_value_properties in Hfv as [Hfrom _].
  rewrite Hdata in Hfrom. simpl default in Hfrom.
  assert (exists d', props = VObj d') as [d' ->].
  { simpl in Hfrom. inv_bind Hfrom. injection Hfrom as <-. eauto. }
  apply from_dict_Obj in Hfrom as (d0 & [= <-] & _ & HF2).
  destruct (from_dict_lookup _ _ _ _ HF2 Hraw) as (v' & Hv' & Hl).
  destruct (from_dict_list _ _ Hl) as (l' & -> & _).
  apply from_dict_list_Forall2 in Hl.
  simpl in Hap. rewrite Hv' in Hap. injection Hap as <-.
  simpl in Hiter. injection Hiter as <-.
  apply list_elem_of_lookup in Hin as [i Hi].
  destruct (Forall2_lookup_l _ _ _ _ _ Hl Hi) as (policy' & Hi' & Hconv).
  destruct (Forall2_lookup_l _ _ _ _ _ HF Hi') as (r & _ & Hr).
  destruct Hr as (oid & perms & _ & Hoid & Hperms & _).
  destruct policy' as [| | | | | | |kvs']; try discriminate.
  apply from_dict_Obj in Hconv as (kvs & -> & Hkeys & _).
  simpl in Hoid, Hperms.
  destruct (Hbad kvs eq_refl) as [Hno|Hno];
    apply dict_get_None in Hno; rewrite <- Hkeys in Hno;
    apply dict_get_None in Hno; rewrite Hno in *; discriminate.
Qed.

Lemma keyvault_malformed_policy_raises_witness :
  dict_get "properties" record_vault_bad_policy
  = Some (VDict [("accessPolicies",
                   VList [VDict [("objectId", VStr "p1");
                                 ("permissions", VDict [("keys", VList [VStr "get"])])];
                          VDict [("permissions", VDict [("keys", VList [VStr "get"])])]])]) /\
  raises (construct KeyVault record_vault_bad_policy).
Proof.
  split; [reflexivity|].
  apply (keyvault_malformed_policy_raises record_vault_bad_policy _ _
           (VDict [("permissions", VDict [("keys", VList [VStr "get"])])])
           eq_refl eq_refl).
  - right. left.
  - intros kvs [= <-]. by left.
Defined.

(** ** The model registry *)

Section DictOf.
Context {A : Type} (key : A -> string).

Let step (acc : list (string * A)) (c : A) : list (string * A) :=
  dict_set (key c) c acc.

Lemma dict_of_other cs d k :
  k ∉ key <$> cs -> dict_get k (fold_left step cs d) = dict_get k d.
Proof.
  revert d. induction cs as [|c cs IH]; intros d; [done|].
  rewrite fmap_cons, not_elem_of_cons. intros [Hne Hk]. simpl.
  rewrite IH by done. by apply dict_get_set_ne.
Qed.

Lemma dict_of_lookup cs d c :
  NoDup (key <$> cs) -> c ∈ cs ->
  dict_get (key c) (fold_left step cs d) = Some c.
Proof.
  revert d. induction cs as [|c' cs IH]; intros d; [by inversion 2|].
  rewrite fmap_cons, NoDup_cons. intros [Hc Hnd] Hin. simpl.
  apply elem_of_cons in Hin as [->|Hin].
  - rewrite dict_of_other by done. apply dict_get_set_eq.
  - by apply IH.
Qed.

Lemma dict_of_values cs d k c :
  dict_get k (fold_left step cs d) = Some c ->
  (c ∈ cs /\ key c = k) \/ dict_get k d = Some c.
Proof.
  revert d. induction cs as [|c' cs IH]; intros d; [by right|].
  simpl. intros [[Hin Hk]|Hd]%IH.
  - left. split; [by right|done].
  - unfold step in Hd. destruct (decide (k = key c')) as [->|Hne].
    + rewrite dict_get_set_eq in Hd. injection Hd as <-. left. split; [left|done].
    + rewrite dict_get_set_ne in Hd by done. by right.
Qed.

Lemma dict_of_NoDup cs d : NoDup d.*1 -> NoDup (fold_left step cs d).*1.
Proof.
  revert d. induction cs as [|c cs IH]; intros d Hd; [done|].
  simpl. apply IH. by apply dict_set_NoDup.
Qed.
End DictOf.

(** X21: in the registry, whatever [qualname_base] is, every resource
    class is found under its [__arm_type__] and every entry leads to one of
    the ten concrete classes under that class's own key; when
    [qualname_base] gives the identity classes distinct names, none of them
    a resource type, every identity class is found under its name. *)
Theorem registry_dispatch (qualname_base : class -> string) :
  let registry := get_available_models qualname_base in
  (forall c, c ∈ ARMResource_subclasses ->
             dict_get (arm_type_key c) registry = Some c) /\
  (forall k c, dict_get k registry = Some c ->
               (c ∈ ARMResource_subclasses /\ k = arm_type_key c) \/
               (c ∈ AADObject_subclasses /\ k = qualname_base c)) /\
  (NoDup (qualname_base <$> AADObject_subclasses) ->
   (forall a, a ∈ AADObject_subclasses ->
              qualname_base a ∉ arm_type_key <$> ARMResource_subclasses) ->
   forall c, c ∈ AADObject_subclasses ->
             dict_get (qualname_base c) registry = Some c).
Proof.
  intros registry. subst registry. unfold get_available_models.
  assert (NoDup (dict_of arm_type_key ARMResource_subclasses).*1) as Hnd
    by (apply dict_of_NoDup; constructor).
  assert (NoDup (arm_type_key <$> ARMResource_subclasses)) as Hkeys
    by (apply (bool_decide_unpack _); by vm_compute).
  split; [|split].
  - intros c Hc. rewrite dict_get_merge by done.
    unfold dict_of. by rewrite dict_of_lookup.
  - intros k c. rewrite dict_get_merge by done.
    destruct (dict_get k (dict_of arm_type_key ARMResource_subclasses)) as [c'|] eqn:Hk.
    + intros [= <-]. apply dict_of_values in Hk as [[? ?]|?]; [by left|done].
    + intros Ha. apply dict_of_values in Ha as [[? ?]|?]; [by right|done].
  - intros Hqd Hdisj c Hc. rewrite dict_get_merge by done.
    unfold dict_of at 1. rewrite dict_of_other by (by apply Hdisj).
    simpl. unfold dict_of. by rewrite dict_of_lookup.
Qed.

Lemma registry_dispatch_witness :
  NoDup (qualname <$> AADObject_subclasses) /\
  (forall a, a ∈ AADObject_subclasses ->
             qualname a ∉ arm_type_key <$> ARMResource_subclasses) /\
  dict_get "AADGroup" (get_available_models qualname) = Some AADGroup /\
  dict_get "microsoft.keyvault/vaults" (get_available_models qualname) = Some KeyVault.
Proof.
  assert (NoDup (qualname <$> AADObject_subclasses)) as H1
    by (apply (bool_decide_unpack _); by vm_compute).
  assert (forall a, a ∈ AADObject_subclasses ->
                    qualname a ∉ arm_type_key <$> ARMResource_subclasses) as H2.
  { intros a Ha. apply (bool_decide_unpack _).
    repeat (apply elem_of_cons in Ha as [->|Ha]; [by vm_compute|]).
    by apply elem_of_nil in Ha. }
  split; [exact H1|]. split; [exact H2|].
  destruct (registry_dispatch qualname) as (Harm & _ & Haad).
  split.
  - apply (Haad H1 H2 AADGroup). do 2 right. left.
  - apply (Harm KeyVault). do 3 right. left.
Defined.

Lemma primary_label_Ok c : c <> Node -> exists l, primary_label c = Ok l.
Proof. intros Hc. destruct c; try done; by eexists. Qed.

(** X20: for a registry without the abstract [Node], the list of all
    labels is sorted (in the order of strings), has no duplicate, and holds
    exactly the first labels of the registered classes. *)
Theorem all_labels_sorted (models : list (string * class)) :
  Forall (fun kv => kv.2 <> Node) models ->
  exists labels,
    get_all_labels models = Ok labels /\
    StronglySorted String.le labels /\
    NoDup labels /\
    forall l, l ∈ labels <-> exists kv, kv ∈ models /\ primary_label kv.2 = Ok l.
Proof.
  intros Hm. unfold get_all_labels.
  destruct (mapM_Ok_Forall (fun kv : string * class => primary_label kv.2) models)
    as [ls Hls].
  { eapply Forall_impl; [exact Hm|]. intros kv Hkv. by apply primary_label_Ok. }
  rewrite Hls. simpl. eexists. split; [reflexivity|].
  split; [apply StronglySorted_merge_sort; apply _|].
  split.
  - rewrite merge_sort_Permutation. apply NoDup_remove_dups.
  - intros l. rewrite merge_sort_Permutation, elem_of_remove_dups.
    apply mapM_Forall2 in Hls. split.
    + intros [i Hi]%list_elem_of_lookup.
      destruct (Forall2_lookup_r _ _ _ _ _ Hls Hi) as (kv & Hkv & Hl).
      exists kv. split; [by eapply list_elem_of_lookup_2|done].
    + intros (kv & [i Hi]%list_elem_of_lookup & Hl).
      destruct (Forall2_lookup_l _ _ _ _ _ Hls Hi) as (l' & Hl' & Heq).
      rewrite Hl in Heq. injection Heq as <-. by eapply list_elem_of_lookup_2.
Qed.

Lemma all_labels_sorted_witness :
  Forall (fun kv => kv.2 <> Node) (get_available_models qualname) /\
  get_all_labels (get_available_models qualname)
  = Ok ["AADAPPLICATION"; "AADGROUP"; "AADROLE"; "AADSERVICEPRINCIPAL"; "AADUSER";
        "KEYVAULT"; "RESOURCEGROUP"; "STORAGEACCOUNT"; "SUBSCRIPTION"; "TENANT"] /\
  exists labels, get_all_labels (get_available_models qualname) = Ok labels /\
                 StronglySorted String.le labels /\ NoDup labels.
Proof.
  assert (Forall (fun kv => kv.2 <> Node) (get_available_models qualname)) as H.
  { repeat constructor; discriminate. }
  split; [exact H|]. split; [by vm_compute|].
  destruct (all_labels_sorted _ H) as (labels & Hl & Hs & Hn & _).
  by exists labels.
Defined.

(** ** The declared extraction fields of a resource *)

(** The validated values have the declared fields as keys, in their order. *)
Lemma validated_keys fs data out :
  validate_model fs data [] true = Ok out -> out.*1 = fname <$> fs.
Proof.
  intros (_ & vs & Hvs & ->)%validate_model_Ok. simpl.
  apply Forall2_length in Hvs.
  by rewrite fst_zip by (rewrite length_fmap; lia).
Qed.

(** The final segment of a declared extraction field is not the name of a
    field of its class, nor a key that the export treats on its own. *)
Lemma xfields_not_fields c p :
  p ∈ __xfields__ c ->
  (field_name p ∉ fname <$> fields_of c) /\
  field_name p <> "_relationships" /\ field_name p <> "properties".
Proof.
  destruct c; simpl __xfields__; try (by intros ?%elem_of_nil);
    intros Hp; repeat (apply elem_of_cons in Hp as [->|Hp];
      [split; [apply (bool_decide_unpack _); by vm_compute|by split]|]);
    by apply elem_of_nil in Hp.
Qed.

(** X23: no constructed resource has a promoted field, whatever its class
    declares and whatever its [properties] hold: [__xdict__] is empty, and
    the export has no key for any extraction field that the class
    declares. *)
Theorem declared_fields_never_exported c data self :
  family_of c = FARM ->
  construct c data = Ok self ->
  __xdict__ self = [] /\
  forall p, p ∈ __xfields__ c ->
            dict_get (field_name p) (ARM.node self) = None.
Proof.
  intros Hc H. unfold construct in H. rewrite Hc in H.
  apply arm_init_Ok in H
    as (rid & values & props & xdict & contains & extra & Hv & _ & _ & _ & _
        & -> & _ & _ & ->); [|done].
  split; [done|]. intros p Hp.
  destruct (xfields_not_fields c p Hp) as (Hf & Hr & Hprops).
  rewrite arm_node_get; [|constructor|done|done|done].
  cbn [fields]. apply validated_keys in Hv.
  rewrite <- Hv in Hf. apply dict_get_None in Hf. by rewrite Hf.
Qed.

Lemma declared_fields_never_exported_witness :
  family_of KeyVault = FARM /\
  construct KeyVault record_vault = Ok vault_instance /\
  "vaultUri" ∈ __xfields__ KeyVault /\
  __xdict__ vault_instance = [] /\
  dict_get "vaultUri" (ARM.node vault_instance) = None.
Proof.
  assert ("vaultUri" ∈ __xfields__ KeyVault) as Hin by (simpl; do 4 right; left).
  split; [reflexivity|]. split; [reflexivity|]. split; [exact Hin|].
  destruct (declared_fields_never_exported KeyVault record_vault vault_instance
              eq_refl eq_refl) as [Hx Hget].
  split; [exact Hx|]. exact (Hget "vaultUri" Hin).
Defined.

(** ** The edges of an instance *)

Lemma resourcegroup_edge_invariant self id lc l r :
  attr self "id" = Ok (VStr id) ->
  _labels (cls self) = Some lc ->
  ARM.resourcegroup_edge self = Ok l ->
  Rel r ∈ l -> edge_invariant id lc r.
Proof.
  unfold ARM.resourcegroup_edge. intros Hid Hlc H Hin.
  destruct (__map_to_resourcegroup__ (cls self)).
  - inv_bind H. injection H as <-.
    apply list_elem_of_singleton in Hin. injection Hin as ->.
    rewrite Hid in *. simplify_eq.
    match goal with
    | H : Relationship.init _ _ _ _ _ _ = Ok _ |- _ =>
        apply Relationship_init_Ok in H
          as (s & g & sl & tl & _ & [= <-] & [= <-] & Htl & ->)
    end.
    rewrite Hlc in Htl. injection Htl as <-. by unfold edge_invariant.
  - injection H as <-. by apply elem_of_nil in Hin.
Qed.

Lemma keyvault_hook_invariant self id lc extra r :
  attr self "id" = Ok (VStr id) ->
  _labels (cls self) = Some lc ->
  KeyVault__relationships__ self = Ok extra ->
  Rel r ∈ extra -> edge_invariant id lc r.
Proof.
  unfold KeyVault__relationships__. intros Hid Hlc H Hin. inv_bind H.
  apply mapM_Forall2 in H.
  apply list_elem_of_lookup in Hin as [i Hi].
  destruct (Forall2_lookup_r _ _ _ _ _ H Hi) as (policy & _ & Hp).
  inv_bind Hp. injection Hp as ->.
  match goal with
  | H : attr self "id" = Ok ?v |- _ =>
      is_var v; rewrite Hid in H; injection H as <-
  end.
  match goal with
  | H : Relationship.init _ _ _ _ _ _ = Ok _ |- _ =>
      apply Relationship_init_Ok in H
        as (s & g & sl & tl & _ & [= <-] & [= <-] & Htl & ->)
  end.
  rewrite Hlc in Htl. injection Htl as <-. by unfold edge_invariant.
Qed.

(** X24: every edge in the relationship list of a constructed instance is
    of one of four kinds and has the instance at a fixed end: an [Owns] edge
    starts at the instance and ends at an [AADOBJECT]; a [MemberOf] or
    [HasAccessPolicies] edge starts at an [AADOBJECT] and ends at the
    instance; a [Contains] edge starts at a resource group and ends at the
    instance; the instance's end carries the labels of its class.  No edge
    of another kind is ever built. *)
Theorem relationships_touch_the_instance c data self r :
  construct c data = Ok self ->
  Rel r ∈ _relationships self ->
  exists id lc,
    attr self "id" = Ok (VStr id) /\ _labels c = Some lc /\ edge_invariant id lc r.
Proof.
  intros H Hin. destruct (family_of c) eqn:Hc.
  - unfold construct in H. rewrite Hc in H. unfold NodeBase.init in H.
    inv_bind H. injection H as <-. by apply elem_of_nil in Hin.
  - assert (exists values, validate_model (fields_of c) data [] true = Ok values)
      as [values Hv].
    { unfold construct in H. rewrite Hc in H. unfold AAD.init in H.
      destruct (validate_model _ _ _ _); [eauto|discriminate]. }
    destruct (aad_init_valid _ _ _ Hc Hv)
      as (id & sl & owners & members & Hid & Hsl & _ & _ & Heq).
    rewrite Heq in H. injection H as <-.
    exists id, sl. split; [unfold attr; simpl; by rewrite Hid|]. split; [done|].
    cbn [_relationships] in Hin.
    apply elem_of_app in Hin as [Hin|Hin]; [|apply elem_of_app in Hin as [Hin|Hin]].
    + apply list_elem_of_fmap in Hin as (o & [= ->] & _). by unfold edge_invariant.
    + apply list_elem_of_fmap in Hin as (m & [= ->] & _). by unfold edge_invariant.
    + by apply list_elem_of_singleton in Hin.
  - unfold construct in H. rewrite Hc in H.
    apply arm_init_Ok in H
      as (id & values & props & xdict & contains & extra & _ & Hid & _ & _ & _
          & _ & Hedge & Hhook & ->); [|done].
    assert (forall x rels, attr (Instance c values x rels) "id" = Ok (VStr id))
      as Hattr.
    { intros. unfold attr. simpl. by rewrite Hid. }
    assert (exists lc, _labels c = Some lc) as [lc Hlc]
      by (destruct c; try discriminate; by eexists).
    exists id, lc. split; [apply Hattr|]. split; [done|].
    cbn [_relationships] in Hin. apply elem_of_app in Hin as [Hin|Hin].
    + by eapply resourcegroup_edge_invariant; [apply Hattr| |exact Hedge|].
    + unfold __relationships__ in Hhook. cbn [cls] in Hhook.
      destruct (decide (c = KeyVault)) as [->|Hkv].
      * by eapply keyvault_hook_invariant; [apply Hattr| |exact Hhook|].
      * assert (extra = [EmptyList]) as ->.
        { destruct c; try done; by injection Hhook. }
        by apply list_elem_of_singleton in Hin.
Qed.

Lemma relationships_touch_the_instance_witness :
  construct KeyVault record_vault = Ok vault_instance /\
  (forall r, Rel r ∈ _relationships vault_instance ->
             exists id lc,
               attr vault_instance "id" = Ok (VStr id) /\
               _labels KeyVault = Some lc /\ edge_invariant id lc r).
Proof.
  split; [reflexivity|].
  intros r. exact (relationships_touch_the_instance KeyVault record_vault
                     vault_instance r eq_refl).
Defined.
